(** * Parquet to BigQuery schema generator

    A shallow embedding of [scripts/parquet_to_bq_schema.py]: the column-name
    validator, the Arrow-to-BigQuery type mapping, the stateful
    [BigQuerySchemaGenerator] with its two accumulators, the DDL and
    column-tuple renderers and the top-level entry point
    [generate_bigquery_schema_from_parquet], followed by the properties the
    design document states about them. *)

From Stdlib Require Import String Ascii.
From Stdlib Require Import List NArith Arith Bool Lia.
Import ListNotations.

Set Implicit Arguments.

(** ** Python strings *)

(** A Python [str] is a sequence of Unicode code points; [len] counts code
    points and indexing returns one of them. *)
Definition char := N.
Definition str := list char.

(** A literal of the source, written as a Rocq string of ASCII characters. *)
Definition lit (s : string) : str := map N_of_ascii (list_ascii_of_string s).
Arguments lit s%_string.

Definition underscore : char := 95%N.
Definition space : char := 32%N.

Definition char_eqb (a b : char) : bool := N.eqb a b.

(** [a == b] on strings. *)
Fixpoint str_eqb (a b : str) : bool :=
  match a, b with
  | [], [] => true
  | x :: a', y :: b' => char_eqb x y && str_eqb a' b'
  | _, _ => false
  end.

(** [s.startswith(prefix)]. *)
Fixpoint startswith (s prefix : str) {struct prefix} : bool :=
  match prefix with
  | [] => true
  | p :: prefix' =>
      match s with
      | [] => false
      | c :: s' => char_eqb c p && startswith s' prefix'
      end
  end.

(** [sep.join(parts)]. *)
Fixpoint join (sep : str) (parts : list str) : str :=
  match parts with
  | [] => []
  | [p] => p
  | p :: rest => p ++ sep ++ join sep rest
  end.

(** [f"{s:<width}"]: left-justify by padding with spaces on the right. *)
Definition ljust (width : nat) (s : str) : str :=
  s ++ repeat space (width - length s).

(** Decimal rendering of a non-negative integer, as [str(n)] and [f"{n}"]. *)
Definition digit_char (d : nat) : char := N.of_nat (48 + d).

Fixpoint digits_fuel (fuel n : nat) (acc : str) : str :=
  match fuel with
  | O => acc
  | S fuel' =>
      let acc' := digit_char (n mod 10) :: acc in
      if n / 10 =? 0 then acc' else digits_fuel fuel' (n / 10) acc'
  end.

Definition str_of_nat (n : nat) : str := digits_fuel (S n) n [].

(** The Unicode character database of the host interpreter, as far as the
    validator consults it.  The methods are those of a one-character [str];
    [toupper_full] is the full upper-case mapping, which may yield more than
    one code point. *)
Class UnicodeData : Type := {
  isalpha : char -> bool;
  isdecimal : char -> bool;
  isdigit : char -> bool;
  isnumeric : char -> bool;
  toupper_full : char -> list char
}.

Section StrMethods.
Context {ud : UnicodeData}.

(** [c.isalnum()] holds when one of [isalpha], [isdecimal], [isdigit] or
    [isnumeric] does. *)
Definition isalnum (c : char) : bool :=
  isalpha c || isdecimal c || isdigit c || isnumeric c.

(** [s.upper()] maps every character through the full upper-case mapping. *)
Definition upper (s : str) : str := flat_map toupper_full s.
End StrMethods.

(** The database restricted to ASCII: it agrees with CPython on every code
    point below 128 and treats the others as caseless and unclassified.  It is
    the instance at which the concrete ASCII examples below are evaluated. *)
Definition in_range (lo hi c : N) : bool := (lo <=? c)%N && (c <=? hi)%N.

Definition ascii_data : UnicodeData := {|
  isalpha c := in_range 65 90 c || in_range 97 122 c;
  isdecimal c := in_range 48 57 c;
  isdigit c := in_range 48 57 c;
  isnumeric c := in_range 48 57 c;
  toupper_full c := if in_range 97 122 c then [(c - 32)%N] else [c]
|}.

(** ** The column-name validator *)

Section Validator.
Context {ud : UnicodeData}.

Definition restricted_prefixes : list str :=
  [ lit "_PARTITION"; lit "_TABLE_"; lit "_FILE_";
    lit "_ROW_TIMESTAMP"; lit "__ROOT__"; lit "_COLIDENTIFIER" ].

Definition reason_empty : str := lit "Empty column name".

Definition reason_too_long (n : nat) : str :=
  lit "Column name too long (" ++ str_of_nat n ++ lit " > 300 chars)".

Definition reason_prefix (prefix : str) : str :=
  lit "Column name starts with restricted prefix '" ++ prefix ++ lit "'".

Definition reason_first_char : str :=
  lit "Column name must start with letter or underscore".

Definition reason_invalid_chars : str :=
  lit "Column name contains invalid characters".

(** [is_valid_column_name]: the pair [(is_valid, reason_if_invalid)].  The
    emptiness test and the later [column_name[0]] are one pattern match; the
    loop over the prefixes returns at the first one that matches. *)
Definition is_valid_column_name (column_name : str) : bool * str :=
  match column_name with
  | [] => (false, reason_empty)
  | c0 :: _ =>
      if 300 <? length column_name
      then (false, reason_too_long (length column_name))
      else
        let column_name_upper := upper column_name in
        match find (startswith column_name_upper) restricted_prefixes with
        | Some prefix => (false, reason_prefix prefix)
        | None =>
            if negb (isalpha c0 || char_eqb c0 underscore)
            then (false, reason_first_char)
            else if negb (forallb (fun c => isalnum c || char_eqb c underscore)
                                  column_name)
            then (false, reason_invalid_chars)
            else (true, [])
        end
  end.
End Validator.

(** ** Arrow schemas *)

Inductive TimeUnit : Type := unit_s | unit_ms | unit_us | unit_ns.

(** Modelled from the spec: the logical type of a column, which the source
    receives from the Arrow library and inspects only through the predicates
    of [pa.types] and through [value_type].  One constructor per class of
    types that those predicates tell apart; [OtherType] stands for every type
    that none of them recognises (null, decimal, duration, map, dictionary,
    fixed-size and large variants, extension types). *)
Inductive DataType : Type :=
| TimestampType (unit : TimeUnit) (tz : option str)
| TimeType (bit_width : N) (unit : TimeUnit)
| DateType (bit_width : N)
| IntegerType (bit_width : N) (signed : bool)
| FloatingType (bit_width : N)
| BooleanType
| StringType
| BinaryType
| ListType (value_type : DataType)
| LargeListType (value_type : DataType)
| StructType (fields : list Field)
| OtherType (description : str)
with Field : Type :=
| field (field_name : str) (field_type : DataType) (field_nullable : bool).

Definition field_name (f : Field) : str := let (n, _, _) := f in n.
Definition field_type (f : Field) : DataType := let (_, t, _) := f in t.
Definition field_nullable (f : Field) : bool := let (_, _, b) := f in b.

(** A [pa.Schema]: its fields in column order. *)
Definition Schema := list Field.
Definition names (schema : Schema) : list str := map field_name schema.

Module types.
Definition is_timestamp (t : DataType) : bool :=
  match t with TimestampType _ _ => true | _ => false end.
Definition is_time (t : DataType) : bool :=
  match t with TimeType _ _ => true | _ => false end.
Definition is_date (t : DataType) : bool :=
  match t with DateType _ => true | _ => false end.
Definition is_integer (t : DataType) : bool :=
  match t with IntegerType _ _ => true | _ => false end.
Definition is_floating (t : DataType) : bool :=
  match t with FloatingType _ => true | _ => false end.
Definition is_boolean (t : DataType) : bool :=
  match t with BooleanType => true | _ => false end.
Definition is_string (t : DataType) : bool :=
  match t with StringType => true | _ => false end.
(** [is_unicode] is the library's alias of [is_string]. *)
Definition is_unicode (t : DataType) : bool := is_string t.
Definition is_binary (t : DataType) : bool :=
  match t with BinaryType => true | _ => false end.
Definition is_list (t : DataType) : bool :=
  match t with ListType _ => true | _ => false end.
Definition is_large_list (t : DataType) : bool :=
  match t with LargeListType _ => true | _ => false end.
Definition is_struct (t : DataType) : bool :=
  match t with StructType _ => true | _ => false end.
End types.

(** [get_bigquery_type]: the chain of tests of the source, in its order.  The
    list branch reads [arrow_type.value_type], which exists exactly on the two
    list classes. *)
Fixpoint get_bigquery_type (arrow_type : DataType) : str :=
  if types.is_timestamp arrow_type then lit "TIMESTAMP"
  else if types.is_time arrow_type then lit "TIME"
  else if types.is_date arrow_type then lit "DATE"
  else if types.is_integer arrow_type then lit "INTEGER"
  else if types.is_floating arrow_type then lit "FLOAT"
  else if types.is_boolean arrow_type then lit "BOOLEAN"
  else if types.is_string arrow_type || types.is_unicode arrow_type
  then lit "STRING"
  else if types.is_binary arrow_type then lit "BYTES"
  else
    match arrow_type with
    | ListType value_type | LargeListType value_type =>
        let element_type := get_bigquery_type value_type in
        lit "ARRAY<" ++ element_type ++ lit ">"
    | _ =>
        if types.is_struct arrow_type then lit "RECORD"
        else lit "STRING"
    end.

(** ** The generator and its effects *)

(** A BigQuery field definition, the dict with keys ['name'], ['type'] and
    ['mode'] that [generate_schema] builds. *)
Record FieldDef : Type := {
  fd_name : str;
  fd_type : str;
  fd_mode : str
}.

(** An entry of [skipped_columns], the dict with keys ['name'], ['reason'] and
    ['type']. *)
Record SkippedColumn : Type := {
  sk_name : str;
  sk_reason : str;
  sk_type : str
}.

(** The mutable state a call can touch: the two accumulators of the generator
    instance and the lines printed so far. *)
Record State : Type := {
  skipped_columns : list SkippedColumn;
  valid_columns : list str;
  stdout : list str
}.

(** A call either returns a value or raises [Exception(message)]. *)
Inductive Outcome (A : Type) : Type :=
| Return (a : A)
| Raise (message : str).
Arguments Raise {A} message.

Definition M (A : Type) : Type := State -> Outcome A * State.

Definition ret {A} (a : A) : M A := fun st => (Return a, st).

Definition bind {A B} (m : M A) (k : A -> M B) : M B :=
  fun st =>
    match m st with
    | (Return a, st') => k a st'
    | (Raise e, st') => (Raise e, st')
    end.

Definition raise {A} (message : str) : M A := fun st => (Raise message, st).

(** [try: body except Exception as e: handler(str(e))]. *)
Definition try_except {A} (body : M A) (handler : str -> M A) : M A :=
  fun st =>
    match body st with
    | (Return a, st') => (Return a, st')
    | (Raise e, st') => handler e st'
    end.

Declare Scope py_scope.
Delimit Scope py_scope with py.
Notation "x <- m ;; k" := (bind m (fun x => k))
  (at level 100, m at next level, right associativity) : py_scope.
Notation "m ;; k" := (bind m (fun _ => k))
  (at level 100, right associativity) : py_scope.
Local Open Scope py_scope.

Definition print (line : str) : M unit :=
  fun st =>
    (Return tt,
     {| skipped_columns := skipped_columns st;
        valid_columns := valid_columns st;
        stdout := stdout st ++ [line] |}).

Definition get_skipped_columns : M (list SkippedColumn) :=
  fun st => (Return (skipped_columns st), st).

Definition get_valid_columns : M (list str) :=
  fun st => (Return (valid_columns st), st).

Definition set_skipped_columns (l : list SkippedColumn) : M unit :=
  fun st =>
    (Return tt,
     {| skipped_columns := l;
        valid_columns := valid_columns st;
        stdout := stdout st |}).

Definition set_valid_columns (l : list str) : M unit :=
  fun st =>
    (Return tt,
     {| skipped_columns := skipped_columns st;
        valid_columns := l;
        stdout := stdout st |}).

(** [for x in xs: acc = body(x, acc)], a loop that rebinds one local. *)
Fixpoint for_each {A B} (xs : list A) (body : A -> B -> M B) (acc : B) : M B :=
  match xs with
  | [] => ret acc
  | x :: rest => acc' <- body x acc ;; for_each rest body acc'
  end.

(** What the run takes from the Arrow library and the file system:
    [type_str t] is [str(t)], and [read_table path] is the schema of
    [pq.read_table(path)], or the text of the exception it raises. *)
Class Arrow : Type := {
  type_str : DataType -> str;
  read_table : str -> str + Schema
}.

Definition newline : char := 10%N.

Section Generator.
Context {ud : UnicodeData} {arrow : Arrow}.

(** [__init__] *)
Definition init : M unit :=
  set_skipped_columns [] ;;
  set_valid_columns [].

Definition read_parquet_schema (parquet_file : str) : M Schema :=
  match read_table parquet_file with
  | inr schema => ret schema
  | inl e =>
      raise (lit "Error reading parquet file " ++ parquet_file
             ++ lit ": " ++ e)
  end.

Definition skipped_entry (f : Field) (reason : str) : SkippedColumn :=
  {| sk_name := field_name f;
     sk_reason := reason;
     sk_type := type_str (field_type f) |}.

Definition mode_of (f : Field) : str :=
  if field_nullable f then lit "NULLABLE" else lit "REQUIRED".

Definition field_def_of (f : Field) : FieldDef :=
  {| fd_name := field_name f;
     fd_type := get_bigquery_type (field_type f);
     fd_mode := mode_of f |}.

Definition skipping_line (column_name reason : str) : str :=
  lit "SKIPPING column '" ++ column_name ++ lit "': " ++ reason.

Definition ok_line (column_name bq_type mode : str) : str :=
  lit "OK " ++ ljust 30 column_name ++ lit " -> " ++ ljust 15 bq_type
  ++ lit " (" ++ mode ++ lit ")".

(** The body of the loop of [generate_schema] for one field; [bq_schema] is
    the local list it appends to. *)
Definition process_field (f : Field) (bq_schema : list FieldDef)
  : M (list FieldDef) :=
  let column_name := field_name f in
  let arrow_type := field_type f in
  let '(is_valid, reason) := is_valid_column_name column_name in
  if negb is_valid then
    print (skipping_line column_name reason) ;;
    skipped <- get_skipped_columns ;;
    set_skipped_columns (skipped ++ [skipped_entry f reason]) ;;
    ret bq_schema
  else
    let bq_type := get_bigquery_type arrow_type in
    let mode := mode_of f in
    let field_def :=
      {| fd_name := column_name; fd_type := bq_type; fd_mode := mode |} in
    valid <- get_valid_columns ;;
    set_valid_columns (valid ++ [column_name]) ;;
    print (ok_line column_name bq_type mode) ;;
    ret (bq_schema ++ [field_def]).

Definition generate_schema (parquet_file : str) : M (list FieldDef) :=
  print (lit "Reading parquet file: " ++ parquet_file) ;;
  arrow_schema <- read_parquet_schema parquet_file ;;
  set_skipped_columns [] ;;
  set_valid_columns [] ;;
  print (lit "Processing " ++ str_of_nat (length (names arrow_schema))
         ++ lit " columns...") ;;
  print [] ;;
  for_each arrow_schema process_field [].

Definition rule_line : str := repeat 61%N 60.

(** The line of [print_summary] for one skipped column; its bullet is the
    three code points the source file has there. *)
Definition detail_line (col : SkippedColumn) : str :=
  lit "   " ++ [226; 8364; 162]%N ++ lit " " ++ sk_name col ++ lit ": "
  ++ sk_reason col ++ lit " (type: " ++ sk_type col ++ lit ")".

Definition print_summary : M unit :=
  print [] ;;
  print rule_line ;;
  print (lit "SCHEMA GENERATION SUMMARY") ;;
  print rule_line ;;
  valid <- get_valid_columns ;;
  print (lit "Valid columns: " ++ str_of_nat (length valid)) ;;
  skipped <- get_skipped_columns ;;
  print (lit "Skipped columns: " ++ str_of_nat (length skipped)) ;;
  print [] ;;
  match skipped with
  | [] => ret tt
  | _ :: _ =>
      print (lit "Skipped columns details:") ;;
      for_each skipped (fun col _ => print (detail_line col)) tt ;;
      print []
  end.

Definition get_column_tuples (schema : list FieldDef) : list (str * str) :=
  map (fun f => (fd_name f, fd_type f)) schema.

(** One iteration of the loop of [generate_ddl]. *)
Definition field_definition (f : FieldDef) : str :=
  let field_def := lit "  `" ++ fd_name f ++ lit "` " ++ fd_type f in
  if str_eqb (fd_mode f) (lit "REQUIRED")
  then field_def ++ lit " NOT NULL"
  else field_def.

Definition generate_ddl (schema : list FieldDef) (table_name : str) : str :=
  let ddl_lines := [lit "CREATE TABLE `" ++ table_name ++ lit "` ("] in
  let field_definitions :=
    fold_left (fun defs f => defs ++ [field_definition f]) schema [] in
  let ddl_lines :=
    ddl_lines ++ [join (lit "," ++ [newline]) field_definitions] in
  let ddl_lines := ddl_lines ++ [lit ");"] in
  join [newline] ddl_lines.

Definition default_table_name : str := lit "your_table".

Definition no_valid_columns : str :=
  lit "No valid columns found! All columns were skipped.".

(** The module-level entry point: a fresh generator, and every exception
    of the body re-raised with a prefix. *)
Definition generate_bigquery_schema_from_parquet
    (parquet_file table_name : str) : M (str * list (str * str)) :=
  init ;;
  try_except
    (schema <- generate_schema parquet_file ;;
     print_summary ;;
     match schema with
     | [] => raise no_valid_columns
     | _ :: _ =>
         let ddl_statement := generate_ddl schema table_name in
         let column_tuples := get_column_tuples schema in
         ret (ddl_statement, column_tuples)
     end)
    (fun e => raise (lit "Error generating schema: " ++ e)).
End Generator.

Definition empty_state : State :=
  {| skipped_columns := []; valid_columns := []; stdout := [] |}.

(** A rendering of Arrow types for the examples. *)
Definition unit_name (u : TimeUnit) : str :=
  match u with
  | unit_s => lit "s"
  | unit_ms => lit "ms"
  | unit_us => lit "us"
  | unit_ns => lit "ns"
  end.

Fixpoint sample_type_str (t : DataType) : str :=
  match t with
  | TimestampType u _ => lit "timestamp[" ++ unit_name u ++ lit "]"
  | TimeType w u =>
      lit "time" ++ str_of_nat (N.to_nat w) ++ lit "[" ++ unit_name u ++ lit "]"
  | DateType w => lit "date" ++ str_of_nat (N.to_nat w)
  | IntegerType w signed =>
      (if signed then lit "int" else lit "uint") ++ str_of_nat (N.to_nat w)
  | FloatingType w => lit "float" ++ str_of_nat (N.to_nat w)
  | BooleanType => lit "bool"
  | StringType => lit "string"
  | BinaryType => lit "binary"
  | ListType e => lit "list<item: " ++ sample_type_str e ++ lit ">"
  | LargeListType e => lit "large_list<item: " ++ sample_type_str e ++ lit ">"
  | StructType _ => lit "struct"
  | OtherType d => d
  end.

(** An Arrow environment for the examples: the listed files exist with the
    given schemas, every other path fails to open. *)
Fixpoint lookup_file (files : list (str * Schema)) (path : str)
  : option Schema :=
  match files with
  | [] => None
  | (p, schema) :: rest =>
      if str_eqb p path then Some schema else lookup_file rest path
  end.

Definition file_system (files : list (str * Schema)) : Arrow := {|
  type_str := sample_type_str;
  read_table path :=
    match lookup_file files path with
    | Some schema => inr schema
    | None => inl (lit "No such file or directory")
    end
|}.

Definition sample_schema : Schema :=
  [ field (lit "id") (IntegerType 64 true) false;
    field (lit "_partition_date") (DateType 32) true;
    field (lit "tags") (ListType StringType) true;
    field [] (IntegerType 64 true) true ].

Definition rejected_schema : Schema :=
  [ field (lit "_partition_date") (DateType 32) true;
    field (lit "bad-name") StringType true ].

Definition sample_files : Arrow :=
  file_system
    [ (lit "data.parquet", sample_schema);
      (lit "id.parquet", [field (lit "id") (IntegerType 64 true) false]);
      (lit "empty.parquet", []);
      (lit "rejected.parquet", rejected_schema) ].

(** A name of 301 characters that begins with a restricted prefix. *)
Definition long_partition_name : str := lit "_PARTITION" ++ repeat 97%N 291.

Definition sample_ddl_schema : list FieldDef :=
  [ {| fd_name := lit "id"; fd_type := lit "INTEGER";
       fd_mode := lit "REQUIRED" |};
    {| fd_name := lit "tags"; fd_type := lit "ARRAY<STRING>";
       fd_mode := lit "NULLABLE" |} ].


(** ** The design document's wording, for comparison with the code *)

Section ValidatorRules.
Context {ud : UnicodeData}.

(** The five rules of the validator. *)
Definition rule_nonempty (name : str) : Prop := name <> [].

Definition rule_length (name : str) : Prop := length name <= 300.

Definition rule_no_restricted_prefix (name : str) : Prop :=
  forall p, In p restricted_prefixes -> startswith (upper name) p = false.

Definition rule_first_char (name : str) : Prop :=
  exists c rest, name = c :: rest /\ (isalpha c = true \/ c = underscore).

Definition rule_all_chars (name : str) : Prop :=
  Forall (fun c => isalnum c = true \/ c = underscore) name.

(** [validate_name name r]: [r] is the answer that "first failing rule
    wins" prescribes for [name]. *)
Inductive validate_name (name : str) : bool * str -> Prop :=
| Invalid_empty :
    ~ rule_nonempty name ->
    validate_name name (false, reason_empty)
| Invalid_length :
    rule_nonempty name -> ~ rule_length name ->
    validate_name name (false, reason_too_long (length name))
| Invalid_prefix p :
    rule_nonempty name -> rule_length name ->
    In p restricted_prefixes -> startswith (upper name) p = true ->
    validate_name name (false, reason_prefix p)
| Invalid_first_char :
    rule_nonempty name -> rule_length name ->
    rule_no_restricted_prefix name -> ~ rule_first_char name ->
    validate_name name (false, reason_first_char)
| Invalid_chars :
    rule_nonempty name -> rule_length name ->
    rule_no_restricted_prefix name -> rule_first_char name ->
    ~ rule_all_chars name ->
    validate_name name (false, reason_invalid_chars)
| Valid :
    rule_nonempty name -> rule_length name ->
    rule_no_restricted_prefix name -> rule_first_char name ->
    rule_all_chars name ->
    validate_name name (true, []).
End ValidatorRules.

Section Translate.
Context {ud : UnicodeData} {arrow : Arrow}.

Definition valid_name (name : str) : bool :=
  fst (is_valid_column_name name).

Definition valid_field (f : Field) : bool :=
  fst (is_valid_column_name (field_name f)).

Definition rejection_reason (f : Field) : str :=
  snd (is_valid_column_name (field_name f)).

(** The accepted sequence: the valid fields, in source order, translated. *)
Definition accepted (fields : Schema) : list FieldDef :=
  map field_def_of (filter valid_field fields).

(** The rejection list: one record per invalid field, in source order. *)
Definition rejected (fields : Schema) : list SkippedColumn :=
  map (fun f => skipped_entry f (rejection_reason f))
      (filter (fun f => negb (valid_field f)) fields).

(** The line [generate_schema] prints for one field. *)
Definition field_line (f : Field) : str :=
  if valid_field f
  then ok_line (field_name f) (get_bigquery_type (field_type f)) (mode_of f)
  else skipping_line (field_name f) (rejection_reason f).

(** The lines [generate_schema] prints before its loop. *)
Definition reading_line (parquet_file : str) : str :=
  lit "Reading parquet file: " ++ parquet_file.

Definition processing_line (fields : Schema) : str :=
  lit "Processing " ++ str_of_nat (length fields) ++ lit " columns...".

(** What [print_summary] prints for given accumulators. *)
Definition summary_lines (valid : list str) (skipped : list SkippedColumn)
  : list str :=
  [ []; rule_line; lit "SCHEMA GENERATION SUMMARY"; rule_line;
    lit "Valid columns: " ++ str_of_nat (length valid);
    lit "Skipped columns: " ++ str_of_nat (length skipped);
    [] ]
  ++ match skipped with
     | [] => []
     | _ :: _ =>
         [lit "Skipped columns details:"] ++ map detail_line skipped ++ [[]]
     end.
End Translate.

Definition str_eq_dec : forall a b : str, {a = b} + {a <> b} :=
  list_eq_dec N.eq_dec.

(** The DDL text as the design document lays it out: a header line, one line
    per field, a comma after every line but the last, then the closing
    line. *)
Definition ddl_field_base (f : FieldDef) : str :=
  lit "  `" ++ fd_name f ++ lit "` " ++ fd_type f.

Definition ddl_field_line (f : FieldDef) (last : bool) : str :=
  ddl_field_base f
  ++ (if str_eq_dec (fd_mode f) (lit "REQUIRED") then lit " NOT NULL" else [])
  ++ (if last then [] else lit ",")
  ++ [newline].

Fixpoint ddl_field_lines (schema : list FieldDef) : str :=
  match schema with
  | [] => []
  | [f] => ddl_field_line f true
  | f :: rest => ddl_field_line f false ++ ddl_field_lines rest
  end.

Definition ddl_text (table_name : str) (schema : list FieldDef) : str :=
  lit "CREATE TABLE `" ++ table_name ++ lit "` (" ++ [newline]
  ++ ddl_field_lines schema
  ++ lit ");".

(** ** Shapes of types and of the summary, for the further properties *)

(** How many list layers wrap a type, and the type under them. *)
Fixpoint list_depth (t : DataType) : nat :=
  match t with
  | ListType e | LargeListType e => S (list_depth e)
  | _ => 0
  end.

Fixpoint innermost_type (t : DataType) : DataType :=
  match t with
  | ListType e | LargeListType e => innermost_type e
  | _ => t
  end.

(** The BigQuery type names the mapping produces for a type that is not a
    list. *)
Definition base_type_names : list str :=
  [ lit "TIMESTAMP"; lit "TIME"; lit "DATE"; lit "INTEGER"; lit "FLOAT";
    lit "BOOLEAN"; lit "STRING"; lit "BYTES"; lit "RECORD" ].

Definition id_schema : Schema :=
  [field (lit "id") (IntegerType 64 true) false].

Definition split_files : Arrow :=
  file_system
    [ (lit "head.parquet", id_schema);
      (lit "tail.parquet", rejected_schema);
      (lit "both.parquet", id_schema ++ rejected_schema) ].

(** The number of line breaks in a text. *)
Definition newlines (s : str) : nat := count_occ N.eq_dec s newline.

Definition no_newline (s : str) : Prop := ~ In newline s.

(** * The emulator client

    [scripts/bigquery_emulator_external_table.py]: the methods of
    [BigQueryEmulatorExternalTable] that talk to the emulator over HTTP with
    the [requests] library, and [print_query_results]. *)

(** The JSON values the client sends. *)
#[warnings="-register-all"]
Inductive Json : Type :=
| JBool (b : bool)
| JStr (s : str)
| JList (items : list Json)
| JDict (members : list (str * Json)).

Inductive Method : Type := GET | HEAD | POST | DELETE.

Record Request : Type := {
  req_method : Method;
  req_url : str;
  req_json : option Json
}.

(** What the client reads of a response: [status_code], [text] and the
    [content-length] header. *)
Record Response : Type := {
  status_code : nat;
  text : str;
  content_length : option str
}.

(** A call of [requests] answers with a response, or raises an exception
    [e] with text [str(e)]; [connection_error] tells whether [e] is an
    instance of [requests.exceptions.ConnectionError]. *)
Inductive Reply : Type :=
| Responded (r : Response)
| Refused (connection_error : bool) (cause : str).

(** The outside of the client: the reply to a request, given the requests
    made before it, and [Path(p).name]. *)
Class Network : Type := {
  reply : list Request -> Request -> Reply;
  path_name : str -> str
}.

(** An exception in flight: its text, and whether it is a connection
    error.  [Exception(message)] is not one. *)
Record Exn : Type := {
  is_connection_error : bool;
  exn_text : str
}.

Inductive Result (A : Type) : Type :=
| Done (a : A)
| Failed (e : Exn).
Arguments Failed {A} e.

(** What a run of the client touches: the generator's state and standard
    output, the requests made so far, and the seconds spent in
    [time.sleep]. *)
Record Session : Type := {
  console : State;
  attempted : list Request;
  slept : nat
}.

Definition E (A : Type) : Type := Session -> Result A * Session.

Definition eret {A} (a : A) : E A := fun s => (Done a, s).

Definition ebind {A B} (m : E A) (k : A -> E B) : E B :=
  fun s =>
    match m s with
    | (Done a, s') => k a s'
    | (Failed e, s') => (Failed e, s')
    end.

(** [raise Exception(message)] *)
Definition eraise {A} (message : str) : E A :=
  fun s => (Failed {| is_connection_error := false; exn_text := message |}, s).

(** [try: body except Exception as e: handler(str(e))] *)
Definition etry {A} (body : E A) (handler : str -> E A) : E A :=
  fun s =>
    match body s with
    | (Done a, s') => (Done a, s')
    | (Failed e, s') => handler (exn_text e) s'
    end.

(** [try: body except requests.exceptions.ConnectionError: handler] *)
Definition etry_connection_error {A} (body : E A) (handler : E A) : E A :=
  fun s =>
    match body s with
    | (Done a, s') => (Done a, s')
    | (Failed e, s') =>
        if is_connection_error e then handler s' else (Failed e, s')
    end.

(** A computation of the schema generator, run inside the client. *)
Definition lift {A} (m : M A) : E A :=
  fun s =>
    match m (console s) with
    | (Return a, c) =>
        (Done a, {| console := c; attempted := attempted s; slept := slept s |})
    | (Raise message, c) =>
        (Failed {| is_connection_error := false; exn_text := message |},
         {| console := c; attempted := attempted s; slept := slept s |})
    end.

Definition say (line : str) : E unit := lift (print line).

(** [time.sleep(seconds)] *)
Definition sleep (seconds : nat) : E unit :=
  fun s =>
    (Done tt,
     {| console := console s; attempted := attempted s;
        slept := slept s + seconds |}).

Declare Scope emu_scope.
Delimit Scope emu_scope with emu.
Notation "x <- m ;; k" := (ebind m (fun x => k))
  (at level 100, m at next level, right associativity) : emu_scope.
Notation "m ;; k" := (ebind m (fun _ => k))
  (at level 100, right associativity) : emu_scope.

Record BigQueryEmulatorExternalTable : Type := {
  emulator_host : str;
  emulator_port : nat;
  file_server_port : nat;
  project_id : str;
  dataset_id : str;
  base_url : str
}.

Section Emulator.
Context {ud : UnicodeData} {arrow : Arrow} {net : Network}.
Local Open Scope emu_scope.

(** [requests.get], [requests.head], [requests.post(url, json=...)] and
    [requests.delete]: the request is recorded and the network's reply
    returned or raised. *)
Definition request (method : Method) (url : str) (json : option Json)
  : E Response :=
  fun s =>
    let r := {| req_method := method; req_url := url; req_json := json |} in
    let s' := {| console := console s; attempted := attempted s ++ [r];
                 slept := slept s |} in
    match reply (attempted s) r with
    | Responded response => (Done response, s')
    | Refused connection_error cause =>
        (Failed {| is_connection_error := connection_error;
                   exn_text := cause |}, s')
    end.

Definition requests_get (url : str) : E Response := request GET url None.
Definition requests_head (url : str) : E Response := request HEAD url None.
Definition requests_delete (url : str) : E Response := request DELETE url None.
Definition requests_post (url : str) (json : Json) : E Response :=
  request POST url (Some json).

(** [__init__], with ports that are natural numbers. *)
Definition new_emulator (emulator_host : str) (emulator_port : nat)
    (file_server_port : nat) (project_id dataset_id : str)
  : BigQueryEmulatorExternalTable :=
  {| emulator_host := emulator_host;
     emulator_port := emulator_port;
     file_server_port := file_server_port;
     project_id := project_id;
     dataset_id := dataset_id;
     base_url :=
       lit "http://" ++ emulator_host ++ lit ":" ++ str_of_nat emulator_port |}.

#[warnings="-abstract-large-number"]
Definition default_emulator : BigQueryEmulatorExternalTable :=
  new_emulator (lit "localhost") 9050 8080 (lit "test-project")
               (lit "test_dataset").

Definition file_server_root (self : BigQueryEmulatorExternalTable) : str :=
  lit "http://" ++ emulator_host self ++ lit ":"
  ++ str_of_nat (file_server_port self).

Definition projects_url (self : BigQueryEmulatorExternalTable) : str :=
  base_url self ++ lit "/bigquery/v2/projects".

Definition timeout_message : str :=
  lit "Services failed to start within timeout period".

(** The loop of [_wait_for_services]; [remaining] is
    [max_retries - retry_count], so the loop runs while it is positive. *)
Fixpoint wait_loop (self : BigQueryEmulatorExternalTable) (remaining : nat)
  : E unit :=
  match remaining with
  | O => eraise timeout_message
  | S remaining' =>
      ready <-
        etry_connection_error
          (bq_response <- requests_get (projects_url self) ;;
           file_response <- requests_get (file_server_root self) ;;
           if (status_code bq_response =? 200)
              && (status_code file_response =? 200)
           then say (lit "Services are ready!") ;; eret true
           else eret false)
          (eret false) ;;
      if ready then eret tt
      else sleep 2 ;; wait_loop self remaining'
  end.

Definition max_retries : nat := 60.

Definition _wait_for_services (self : BigQueryEmulatorExternalTable) : E unit :=
  say (lit "Waiting for services to be ready...") ;;
  wait_loop self max_retries.

Definition dataset_url (self : BigQueryEmulatorExternalTable) : str :=
  base_url self ++ lit "/bigquery/v2/projects/" ++ project_id self
  ++ lit "/datasets/" ++ dataset_id self.

Definition datasets_url (self : BigQueryEmulatorExternalTable) : str :=
  base_url self ++ lit "/bigquery/v2/projects/" ++ project_id self
  ++ lit "/datasets".

Definition dataset_data (self : BigQueryEmulatorExternalTable) : Json :=
  JDict
    [ (lit "datasetReference",
       JDict [ (lit "projectId", JStr (project_id self));
               (lit "datasetId", JStr (dataset_id self)) ]);
      (lit "friendlyName", JStr (dataset_id self));
      (lit "description", JStr (lit "Test dataset for external table demo")) ].

Definition status_and_text (response : Response) : str :=
  str_of_nat (status_code response) ++ lit " - " ++ text response.

Definition ensure_dataset_exists (self : BigQueryEmulatorExternalTable)
  : E unit :=
  say (lit "Ensuring dataset " ++ dataset_id self ++ lit " exists...") ;;
  let url := dataset_url self in
  response <- requests_get url ;;
  if status_code response =? 200 then
    say (lit "Dataset " ++ dataset_id self ++ lit " already exists")
  else
    let create_url := datasets_url self in
    response <- requests_post create_url (dataset_data self) ;;
    if status_code response =? 200 then
      say (lit "Created dataset " ++ dataset_id self)
    else
      eraise (lit "Failed to create dataset: " ++ status_and_text response).

Definition tables_url (self : BigQueryEmulatorExternalTable) : str :=
  base_url self ++ lit "/bigquery/v2/projects/" ++ project_id self
  ++ lit "/datasets/" ++ dataset_id self ++ lit "/tables".

Definition table_url (self : BigQueryEmulatorExternalTable) (table_name : str)
  : str :=
  tables_url self ++ lit "/" ++ table_name.

(** One iteration of the loop that builds [fields]. *)
Definition api_field (column : str * str) : Json :=
  let '(name, datatype) := column in
  JDict [ (lit "name", JStr name);
          (lit "type", JStr datatype);
          (lit "mode", JStr (lit "NULLABLE")) ].

Definition api_fields (column_tuples : list (str * str)) : list Json :=
  fold_left (fun fields column => fields ++ [api_field column])
            column_tuples [].

Definition file_server_url_of (self : BigQueryEmulatorExternalTable)
    (parquet_filename : str) : str :=
  file_server_root self ++ lit "/data/" ++ parquet_filename.

Definition external_table_data (self : BigQueryEmulatorExternalTable)
    (parquet_file table_name : str) (column_tuples : list (str * str)) : Json :=
  let parquet_filename := path_name parquet_file in
  let file_server_url := file_server_url_of self parquet_filename in
  JDict
    [ (lit "tableReference",
       JDict [ (lit "projectId", JStr (project_id self));
               (lit "datasetId", JStr (dataset_id self));
               (lit "tableId", JStr table_name) ]);
      (lit "schema", JDict [ (lit "fields", JList (api_fields column_tuples)) ]);
      (lit "externalDataConfiguration",
       JDict [ (lit "sourceFormat", JStr (lit "PARQUET"));
               (lit "sourceUris", JList [JStr file_server_url]);
               (lit "autodetect", JBool false) ]);
      (lit "friendlyName",
       JStr (lit "External table for " ++ parquet_filename));
      (lit "description",
       JStr (lit "External table created from " ++ parquet_file)) ].

(** The file check of [create_external_table]: whatever happens, it only
    prints. *)
Definition check_file_accessibility (file_server_url : str) : E unit :=
  say (lit "Checking file accessibility at: " ++ file_server_url) ;;
  etry
    (file_check <- requests_head file_server_url ;;
     if status_code file_check =? 200 then
       say (lit "File is accessible (size: "
            ++ match content_length file_check with
               | Some size => size
               | None => lit "unknown"
               end
            ++ lit " bytes)")
     else
       say (lit "Warning: File check returned status "
            ++ str_of_nat (status_code file_check)))
    (fun e => say (lit "Warning: Could not check file accessibility: " ++ e)).

Definition create_external_table (self : BigQueryEmulatorExternalTable)
    (parquet_file table_name : str) : E (str * list (str * str)) :=
  say (lit "Creating external table " ++ table_name ++ lit " from "
       ++ parquet_file) ;;
  generated <-
    etry (lift (generate_bigquery_schema_from_parquet parquet_file table_name))
         (fun e => eraise (lit "Failed to generate schema: " ++ e)) ;;
  let column_tuples := snd generated in
  let parquet_filename := path_name parquet_file in
  let file_server_url := file_server_url_of self parquet_filename in
  check_file_accessibility file_server_url ;;
  let table_data :=
    external_table_data self parquet_file table_name column_tuples in
  let url := tables_url self in
  response <- requests_post url table_data ;;
  if status_code response =? 200 then
    say (lit "External table " ++ table_name ++ lit " created successfully") ;;
    eret (table_name, column_tuples)
  else
    eraise (lit "Failed to create external table: "
            ++ status_and_text response).

Definition cleanup_table (self : BigQueryEmulatorExternalTable)
    (table_name : str) : E unit :=
  say (lit "Cleaning up table " ++ table_name ++ lit "...") ;;
  let url := table_url self table_name in
  response <- requests_delete url ;;
  if status_code response =? 204 then
    say (lit "Table " ++ table_name ++ lit " deleted successfully")
  else
    say (lit "Warning: Failed to delete table: " ++ status_and_text response).
End Emulator.

Definition new_session : Session :=
  {| console := empty_state; attempted := []; slept := 0 |}.

(** A session after more lines were printed. *)
Definition with_output (s : Session) (lines : list str) : Session :=
  {| console :=
       {| skipped_columns := skipped_columns (console s);
          valid_columns := valid_columns (console s);
          stdout := stdout (console s) ++ lines |};
     attempted := attempted s;
     slept := slept s |}.

(** A session after one more request was made. *)
Definition with_request (s : Session) (r : Request) : Session :=
  {| console := console s;
     attempted := attempted s ++ [r];
     slept := slept s |}.

Definition delete_request (url : str) : Request :=
  {| req_method := DELETE; req_url := url; req_json := None |}.

Definition get_request (url : str) : Request :=
  {| req_method := GET; req_url := url; req_json := None |}.

Definition head_request (url : str) : Request :=
  {| req_method := HEAD; req_url := url; req_json := None |}.

Definition post_request (url : str) (json : Json) : Request :=
  {| req_method := POST; req_url := url; req_json := Some json |}.

(** Networks for the examples: the replies are scripted, the n-th request of
    the session getting the n-th reply, and connections are refused once the
    script is exhausted; the file name of a path is what follows its last
    slash. *)
Fixpoint after_last_slash (path acc : str) : str :=
  match path with
  | [] => acc
  | c :: rest =>
      if char_eqb c 47%N then after_last_slash rest []
      else after_last_slash rest (acc ++ [c])
  end.

Definition connection_refused : Reply :=
  Refused true (lit "Connection refused").

Definition scripted (script : list Reply) : Network := {|
  reply history _ := nth (length history) script connection_refused;
  path_name path := after_last_slash path []
|}.

Definition response_with (status : nat) (body : str) : Reply :=
  Responded {| status_code := status; text := body; content_length := None |}.

(** [j[key]] on a JSON object. *)
Fixpoint lookup_member (key : str) (members : list (str * Json))
  : option Json :=
  match members with
  | [] => None
  | (k, v) :: rest => if str_eqb k key then Some v else lookup_member key rest
  end.

Definition json_get (key : str) (j : Json) : option Json :=
  match j with
  | JDict members => lookup_member key members
  | _ => None
  end.

(** The entry of the API schema for a source field, as the client builds
    it. *)
Definition nullable_api_field (f : Field) : Json :=
  JDict [ (lit "name", JStr (field_name f));
          (lit "type", JStr (get_bigquery_type (field_type f)));
          (lit "mode", JStr (lit "NULLABLE")) ].

(** A session after more seconds of sleep. *)
Definition with_sleep (s : Session) (seconds : nat) : Session :=
  {| console := console s;
     attempted := attempted s;
     slept := slept s + seconds |}.

(** A network on which every connection is refused. *)
Definition unreachable : Network := scripted [].

(** ** Printing a query result *)

(** Modelled on the shape of the emulator's query response, which
    [print_query_results] receives as a dict: ['rows'] is a list of dicts
    whose ['f'] is a list of cell dicts, and ['schema'] is a dict whose
    ['fields'] is a list of dicts with a string under ['name'].  Every key
    may be absent.  Of the value under a cell's ['v'] the source uses only
    whether it is [None] and its [str()]. *)
Inductive CellValue : Type :=
| NoValue
| NoneValue
| Value (rendered : str).

Record RowDict : Type := { row_f : option (list CellValue) }.

Record FieldDict : Type := { field_dict_name : option str }.

Record SchemaDict : Type := { schema_fields : option (list FieldDict) }.

Record QueryResult : Type := {
  result_rows : option (list RowDict);
  result_schema : option SchemaDict
}.

(** [for x in xs: body(x)] in the client. *)
Fixpoint efor {A} (xs : list A) (body : A -> E unit) : E unit :=
  match xs with
  | [] => eret tt
  | x :: rest => ebind (body x) (fun _ => efor rest body)
  end.

(** [[field['name'] for field in schema]]: the first field without a name
    raises [KeyError('name')], whose text is ['name'] in quotes. *)
Fixpoint column_names_of (schema : list FieldDict) : E (list str) :=
  match schema with
  | [] => eret []
  | fd :: rest =>
      match field_dict_name fd with
      | None => eraise (lit "'name'")
      | Some name =>
          ebind (column_names_of rest) (fun names => eret (name :: names))
      end
  end.

(** [cell.get('v', 'NULL')], with [None] replaced by ['NULL'], then [str]. *)
Definition cell_text (v : CellValue) : str :=
  match v with
  | NoValue => lit "NULL"
  | NoneValue => lit "NULL"
  | Value rendered => rendered
  end.

Definition column_separator : str := lit " | ".

Definition print_query_results (result : QueryResult) : E unit :=
  match result_rows result with
  | None => say (lit "No data returned from query")
  | Some [] => say (lit "No data returned from query")
  | Some ((_ :: _) as rows) =>
      let schema :=
        match result_schema result with
        | None => []
        | Some d => match schema_fields d with None => [] | Some fs => fs end
        end in
      ebind (column_names_of schema) (fun column_names =>
      ebind (say []) (fun _ =>
      ebind (say (lit "QUERY RESULTS:")) (fun _ =>
      ebind (say (repeat 61%N 60)) (fun _ =>
      let header := join column_separator (map (ljust 15) column_names) in
      ebind (say header) (fun _ =>
      ebind (say (repeat 45%N (length header))) (fun _ =>
      ebind (efor rows (fun row =>
               let cells := match row_f row with None => [] | Some f => f end in
               let values :=
                 fold_left (fun values cell =>
                              values ++ [ljust 15 (cell_text cell)])
                           cells [] in
               say (join column_separator values))) (fun _ =>
      say [])))))))
  end.

(** The header and the line of a row, as [print_query_results] lays them
    out. *)
Definition header_line (column_names : list str) : str :=
  join column_separator (map (ljust 15) column_names).

Definition row_line (row : RowDict) : str :=
  join column_separator
       (map (fun cell => ljust 15 (cell_text cell))
            (match row_f row with None => [] | Some f => f end)).

Definition named (name : str) : FieldDict := {| field_dict_name := Some name |}.

Definition sample_result : QueryResult :=
  {| result_rows :=
       Some [ {| row_f := Some [Value (lit "1"); NoneValue] |};
              {| row_f := Some [Value (lit "2"); Value (lit "x")] |} ];
     result_schema :=
       Some {| schema_fields := Some [named (lit "id"); named (lit "tag")] |} |}.

(** * Properties *)

Local Open Scope list_scope.

(** ** Strings *)

Lemma char_eqb_eq (a b : char) : char_eqb a b = true <-> a = b.
Proof. apply N.eqb_eq. Qed.

Lemma str_eqb_eq (a b : str) : str_eqb a b = true <-> a = b.
Proof.
  revert b; induction a as [|x a IH]; intros [|y b]; simpl;
    try (split; [discriminate | congruence]); try tauto.
  rewrite andb_true_iff, char_eqb_eq, IH.
  split; [intros [-> ->]; reflexivity | intros E; injection E; auto].
Qed.

Lemma startswith_nth (s p : str) (i : nat) :
  startswith s p = true -> i < length p -> nth_error s i = nth_error p i.
Proof.
  revert s i; induction p as [|c p IH]; intros s i H Hi; simpl in *; [lia|].
  destruct s as [|d s]; [discriminate|].
  apply andb_true_iff in H; destruct H as [Hc Hs].
  apply char_eqb_eq in Hc; subst d.
  destruct i as [|i]; simpl; [reflexivity|].
  apply IH; [exact Hs | lia].
Qed.

Lemma restricted_prefixes_codes :
  restricted_prefixes =
  [ [95; 80; 65; 82; 84; 73; 84; 73; 79; 78];
    [95; 84; 65; 66; 76; 69; 95];
    [95; 70; 73; 76; 69; 95];
    [95; 82; 79; 87; 95; 84; 73; 77; 69; 83; 84; 65; 77; 80];
    [95; 95; 82; 79; 79; 84; 95; 95];
    [95; 67; 79; 76; 73; 68; 69; 78; 84; 73; 70; 73; 69; 82] ]%N.
Proof. reflexivity. Qed.

(** No string starts with two different restricted prefixes: they already
    differ in their second character. *)
Lemma restricted_prefixes_exclusive (s p q : str) :
  In p restricted_prefixes -> In q restricted_prefixes ->
  startswith s p = true -> startswith s q = true -> p = q.
Proof.
  intros Hp Hq Sp Sq.
  assert (E : nth_error p 1 = nth_error q 1).
  { rewrite restricted_prefixes_codes in Hp, Hq.
    rewrite <- (@startswith_nth s p 1 Sp), <- (@startswith_nth s q 1 Sq);
      [reflexivity| |];
      simpl in Hp, Hq; intuition (subst; simpl; lia). }
  rewrite restricted_prefixes_codes in Hp, Hq.
  simpl in Hp, Hq.
  intuition (subst; try reflexivity; simpl in E; discriminate).
Qed.

Lemma restricted_prefix_nonempty (p : str) :
  In p restricted_prefixes -> p <> [].
Proof.
  rewrite restricted_prefixes_codes; simpl.
  intuition (subst; discriminate).
Qed.

Lemma find_restricted (s p : str) :
  In p restricted_prefixes -> startswith s p = true ->
  find (startswith s) restricted_prefixes = Some p.
Proof.
  intros Hp Sp.
  destruct (find (startswith s) restricted_prefixes) as [q|] eqn:F.
  - apply find_some in F; destruct F as [Hq Sq].
    f_equal; eapply restricted_prefixes_exclusive; eauto.
  - apply (find_none _ _ F) in Hp; congruence.
Qed.

(** ** The validator *)

Section ValidatorFacts.
Context {ud : UnicodeData}.

Lemma first_char_test (c : char) (rest : str) :
  isalpha c || char_eqb c underscore = true <-> rule_first_char (c :: rest).
Proof.
  rewrite orb_true_iff, char_eqb_eq; split.
  - intros H; exists c, rest; auto.
  - intros (c' & rest' & E & H); injection E as -> _; exact H.
Qed.

Lemma all_chars_test (name : str) :
  forallb (fun c => isalnum c || char_eqb c underscore) name = true
  <-> rule_all_chars name.
Proof.
  unfold rule_all_chars; rewrite forallb_forall, Forall_forall.
  split; intros H c Hc; specialize (H c Hc);
    rewrite orb_true_iff, char_eqb_eq in *; exact H.
Qed.

Lemma no_prefix_test (name : str) :
  find (startswith (upper name)) restricted_prefixes = None
  <-> rule_no_restricted_prefix name.
Proof.
  split.
  - intros F p Hp; exact (find_none _ _ F p Hp).
  - intros H.
    destruct (find (startswith (upper name)) restricted_prefixes) as [p|] eqn:F;
      [|reflexivity].
    apply find_some in F; destruct F as [Hp Sp].
    rewrite (H p Hp) in Sp; discriminate.
Qed.

(** The code returns the answer the rules prescribe. *)
Lemma is_valid_column_name_sound (name : str) :
  validate_name name (is_valid_column_name name).
Proof.
  destruct name as [|c0 rest]; [apply Invalid_empty; intros H; apply H; reflexivity|].
  assert (NE : rule_nonempty (c0 :: rest)) by discriminate.
  unfold is_valid_column_name.
  remember (c0 :: rest) as name eqn:En.
  destruct (300 <? length name) eqn:L.
  - apply Nat.ltb_lt in L.
    apply Invalid_length; [exact NE | unfold rule_length; lia].
  - apply Nat.ltb_ge in L; cbv zeta.
    destruct (find (startswith (upper name)) restricted_prefixes) as [p|] eqn:F.
    + apply find_some in F; destruct F as [Hp Sp].
      apply Invalid_prefix; assumption.
    + apply no_prefix_test in F.
      destruct (isalpha c0 || char_eqb c0 underscore) eqn:A; cbn [negb].
      * assert (FC : rule_first_char name)
          by (subst name; apply first_char_test; exact A).
        destruct (forallb (fun c => isalnum c || char_eqb c underscore) name)
          eqn:B; cbn [negb].
        -- apply Valid; try assumption. apply all_chars_test; exact B.
        -- apply Invalid_chars; try assumption.
           intros C; apply all_chars_test in C; congruence.
      * apply Invalid_first_char; try assumption.
        intros C; subst name; apply first_char_test in C; congruence.
Qed.

(** The rules prescribe one answer only. *)
Lemma validate_name_functional (name : str) (r : bool * str) :
  validate_name name r -> is_valid_column_name name = r.
Proof.
  intros V.
  destruct name as [|c0 rest].
  { destruct V as [E|NE|p NE|NE|NE|NE]; try (exfalso; apply NE; reflexivity).
    reflexivity. }
  unfold is_valid_column_name.
  remember (c0 :: rest) as name eqn:En.
  destruct V as [E|NE NL|p NE LE Hp Sp|NE LE NP NF|NE LE NP FC NA|NE LE NP FC AC].
  - exfalso; apply E; subst name; discriminate.
  - unfold rule_length in NL.
    replace (300 <? length name) with true
      by (symmetry; apply Nat.ltb_lt; lia).
    reflexivity.
  - unfold rule_length in LE.
    replace (300 <? length name) with false
      by (symmetry; apply Nat.ltb_ge; lia).
    cbv zeta; rewrite (find_restricted _ Hp Sp); reflexivity.
  - unfold rule_length in LE.
    replace (300 <? length name) with false
      by (symmetry; apply Nat.ltb_ge; lia).
    apply no_prefix_test in NP; cbv zeta; rewrite NP.
    destruct (isalpha c0 || char_eqb c0 underscore) eqn:A; [|reflexivity].
    exfalso; apply NF; subst name; apply first_char_test; exact A.
  - unfold rule_length in LE.
    replace (300 <? length name) with false
      by (symmetry; apply Nat.ltb_ge; lia).
    apply no_prefix_test in NP; cbv zeta; rewrite NP.
    subst name; apply first_char_test in FC; rewrite FC; cbn [negb].
    destruct (forallb _ (c0 :: rest)) eqn:B; [|reflexivity].
    exfalso; apply NA, all_chars_test; exact B.
  - unfold rule_length in LE.
    replace (300 <? length name) with false
      by (symmetry; apply Nat.ltb_ge; lia).
    apply no_prefix_test in NP; cbv zeta; rewrite NP.
    subst name; apply first_char_test in FC; rewrite FC; cbn [negb].
    apply all_chars_test in AC; rewrite AC; reflexivity.
Qed.
End ValidatorFacts.


(** C3, as stated, fails: a name that begins with [_PARTITION] but is longer
    than 300 characters is rejected for its length, and the reason does not
    name the prefix. *)
Lemma restricted_prefix_too_long_counterexample :
  In (lit "_PARTITION") restricted_prefixes
  /\ startswith (@upper ascii_data long_partition_name) (lit "_PARTITION") = true
  /\ @is_valid_column_name ascii_data long_partition_name
     = (false, lit "Column name too long (301 > 300 chars)")
  /\ @is_valid_column_name ascii_data long_partition_name
     <> (false, reason_prefix (lit "_PARTITION")).
Proof.
  split; [left; reflexivity|].
  split; [vm_compute; reflexivity|].
  split; [vm_compute; reflexivity|].
  vm_compute; discriminate.
Qed.

(** C3, amended. For every string of at most 300 characters whose upper-cased
    form starts with one of the six restricted prefixes, the validator answers
    invalid with the reason that names that prefix, whatever the rest of the
    string is. *)
Theorem restricted_prefix_rejected :
  forall (ud : UnicodeData) (name prefix : str),
    In prefix restricted_prefixes ->
    startswith (upper name) prefix = true ->
    length name <= 300 ->
    is_valid_column_name name = (false, reason_prefix prefix).
Proof.
  intros ud name prefix Hp Sp LE.
  apply validate_name_functional.
  apply Invalid_prefix; try assumption.
  intros ->; simpl in Sp.
  destruct prefix; [apply (restricted_prefix_nonempty Hp); reflexivity | discriminate].
Qed.

Lemma restricted_prefix_rejected_witness :
  In (lit "_PARTITION") restricted_prefixes
  /\ startswith (@upper ascii_data (lit "_partition_date")) (lit "_PARTITION")
     = true
  /\ length (lit "_partition_date") <= 300
  /\ @is_valid_column_name ascii_data (lit "_partition_date")
     = (false, lit "Column name starts with restricted prefix '_PARTITION'").
Proof.
  assert (Hp : In (lit "_PARTITION") restricted_prefixes) by (left; reflexivity).
  assert (Sp : startswith (@upper ascii_data (lit "_partition_date"))
                 (lit "_PARTITION") = true) by reflexivity.
  assert (LE : length (lit "_partition_date") <= 300) by (vm_compute; lia).
  split; [exact Hp|]. split; [exact Sp|]. split; [exact LE|].
  exact (@restricted_prefix_rejected ascii_data _ _ Hp Sp LE).
Defined.

(** ** The type mapping *)

(** C4. [get_bigquery_type] is a total function of the source type:
    timestamps map to TIMESTAMP, times of day to TIME, dates to DATE, integers
    of any width and signedness to INTEGER, floats of any width to FLOAT,
    booleans to BOOLEAN, strings to STRING, binary to BYTES; a list (or large
    list) of element type E maps to ARRAY<...> around the image of E, so
    nested lists give ARRAY<ARRAY<...>> and lists of structs ARRAY<RECORD>; a
    struct maps to RECORD whatever its fields; every other type maps to
    STRING. *)
Theorem get_bigquery_type_mapping :
  (forall u tz, get_bigquery_type (TimestampType u tz) = lit "TIMESTAMP")
  /\ (forall w u, get_bigquery_type (TimeType w u) = lit "TIME")
  /\ (forall w, get_bigquery_type (DateType w) = lit "DATE")
  /\ (forall w sg, get_bigquery_type (IntegerType w sg) = lit "INTEGER")
  /\ (forall w, get_bigquery_type (FloatingType w) = lit "FLOAT")
  /\ get_bigquery_type BooleanType = lit "BOOLEAN"
  /\ get_bigquery_type StringType = lit "STRING"
  /\ get_bigquery_type BinaryType = lit "BYTES"
  /\ (forall e, get_bigquery_type (ListType e)
                = lit "ARRAY<" ++ get_bigquery_type e ++ lit ">")
  /\ (forall e, get_bigquery_type (LargeListType e)
                = lit "ARRAY<" ++ get_bigquery_type e ++ lit ">")
  /\ (forall fields, get_bigquery_type (StructType fields) = lit "RECORD")
  /\ (forall d, get_bigquery_type (OtherType d) = lit "STRING")
  /\ get_bigquery_type (ListType StringType) = lit "ARRAY<STRING>"
  /\ (forall e, get_bigquery_type (ListType (ListType e))
                = lit "ARRAY<ARRAY<" ++ get_bigquery_type e ++ lit ">>")
  /\ (forall fields, get_bigquery_type (ListType (StructType fields))
                     = lit "ARRAY<RECORD>").
Proof.
  repeat split; intros; try reflexivity.
  change (get_bigquery_type (ListType (ListType e)))
    with (lit "ARRAY<" ++ (lit "ARRAY<" ++ get_bigquery_type e ++ lit ">")
          ++ lit ">").
  change (lit "ARRAY<ARRAY<") with (lit "ARRAY<" ++ lit "ARRAY<").
  change (lit ">>") with (lit ">" ++ lit ">").
  rewrite <- !app_assoc; reflexivity.
Qed.

(** ** The generator *)

Section GeneratorFacts.
Context {ud : UnicodeData} {arrow : Arrow}.

Lemma process_field_run (f : Field) (bq : list FieldDef) (st : State) :
  process_field f bq st =
  (Return (bq ++ accepted [f]),
   {| skipped_columns := skipped_columns st ++ rejected [f];
      valid_columns :=
        valid_columns st ++ map field_name (filter valid_field [f]);
      stdout := stdout st ++ [field_line f] |}).
Proof.
  unfold process_field, accepted, rejected, field_line, valid_field,
    rejection_reason; cbv zeta; cbn [filter].
  destruct (is_valid_column_name (field_name f)) as [[|] reason] eqn:E;
    destruct st; cbn -[lit]; rewrite ?E, ?app_nil_r; reflexivity.
Qed.

Lemma accepted_cons (f : Field) (fs : Schema) :
  accepted (f :: fs) = accepted [f] ++ accepted fs.
Proof. unfold accepted; simpl; destruct (valid_field f); reflexivity. Qed.

Lemma rejected_cons (f : Field) (fs : Schema) :
  rejected (f :: fs) = rejected [f] ++ rejected fs.
Proof. unfold rejected; simpl; destruct (valid_field f); reflexivity. Qed.

Lemma valid_names_cons (f : Field) (fs : Schema) :
  map field_name (filter valid_field (f :: fs))
  = map field_name (filter valid_field [f])
    ++ map field_name (filter valid_field fs).
Proof. simpl; destruct (valid_field f); reflexivity. Qed.

(** The loop of [generate_schema], from any accumulators. *)
Lemma for_each_process_field (fs : Schema) :
  forall (bq : list FieldDef) (st : State),
    for_each fs process_field bq st =
    (Return (bq ++ accepted fs),
     {| skipped_columns := skipped_columns st ++ rejected fs;
        valid_columns :=
          valid_columns st ++ map field_name (filter valid_field fs);
        stdout := stdout st ++ map field_line fs |}).
Proof.
  induction fs as [|f fs IH]; intros bq st.
  - destruct st; cbn; rewrite !app_nil_r; reflexivity.
  - cbn [for_each]; unfold bind at 1.
    rewrite process_field_run, IH; cbn [skipped_columns valid_columns stdout].
    rewrite (accepted_cons f fs), (rejected_cons f fs), (valid_names_cons f fs).
    cbn [map]; rewrite <- !app_assoc; reflexivity.
Qed.

(** [generate_schema] on a file that reads: the result and the accumulators
    depend on the file's fields alone. *)
Lemma generate_schema_reads (parquet_file : str) (fields : Schema) (st : State) :
  read_table parquet_file = inr fields ->
  generate_schema parquet_file st =
  (Return (accepted fields),
   {| skipped_columns := rejected fields;
      valid_columns := map field_name (filter valid_field fields);
      stdout :=
        stdout st
        ++ [reading_line parquet_file; processing_line fields; []]
        ++ map field_line fields |}).
Proof.
  intros R.
  unfold generate_schema, read_parquet_schema, bind; rewrite R.
  cbn -[for_each process_field lit str_of_nat].
  rewrite for_each_process_field; cbn [skipped_columns valid_columns stdout].
  unfold names, reading_line, processing_line; rewrite length_map.
  rewrite <- !app_assoc; reflexivity.
Qed.

(** [generate_schema] on a file that does not read: the exception leaves
    before the accumulators are reset. *)
Lemma generate_schema_read_error (parquet_file e : str) (st : State) :
  read_table parquet_file = inl e ->
  generate_schema parquet_file st =
  (Raise (lit "Error reading parquet file " ++ parquet_file ++ lit ": " ++ e),
   {| skipped_columns := skipped_columns st;
      valid_columns := valid_columns st;
      stdout := stdout st ++ [reading_line parquet_file] |}).
Proof.
  intros R.
  unfold generate_schema, read_parquet_schema, bind; rewrite R.
  reflexivity.
Qed.
Lemma for_each_detail_lines (cols : list SkippedColumn) :
  forall st : State,
    for_each cols (fun col _ => print (detail_line col)) tt st =
    (Return tt,
     {| skipped_columns := skipped_columns st;
        valid_columns := valid_columns st;
        stdout := stdout st ++ map detail_line cols |}).
Proof.
  induction cols as [|col cols IH]; intros st.
  - destruct st; cbn; rewrite app_nil_r; reflexivity.
  - cbn [for_each]; unfold bind at 1, print at 1.
    rewrite IH; cbn [skipped_columns valid_columns stdout map].
    rewrite <- app_assoc; reflexivity.
Qed.

Lemma print_summary_run (st : State) :
  print_summary st =
  (Return tt,
   {| skipped_columns := skipped_columns st;
      valid_columns := valid_columns st;
      stdout :=
        stdout st ++ summary_lines (valid_columns st) (skipped_columns st) |}).
Proof.
  destruct st as [sk va out]; unfold print_summary, summary_lines.
  destruct sk as [|col sk].
  - cbn -[lit str_of_nat rule_line]; rewrite <- !app_assoc; reflexivity.
  - cbn -[lit str_of_nat rule_line for_each detail_line length].
    unfold bind; rewrite for_each_detail_lines.
    unfold print; cbn [skipped_columns valid_columns stdout].
    rewrite <- !app_assoc; reflexivity.
Qed.

Lemma init_run (st : State) :
  init st =
  (Return tt,
   {| skipped_columns := []; valid_columns := []; stdout := stdout st |}).
Proof. reflexivity. Qed.

(** The entry point on a file that reads. *)
Lemma entry_point_reads (parquet_file table_name : str) (fields : Schema)
      (st : State) :
  read_table parquet_file = inr fields ->
  generate_bigquery_schema_from_parquet parquet_file table_name st =
  (match accepted fields with
   | [] => Raise (lit "Error generating schema: " ++ no_valid_columns)
   | _ :: _ =>
       Return (generate_ddl (accepted fields) table_name,
               get_column_tuples (accepted fields))
   end,
   {| skipped_columns := rejected fields;
      valid_columns := map field_name (filter valid_field fields);
      stdout :=
        (stdout st
         ++ [reading_line parquet_file; processing_line fields; []]
         ++ map field_line fields)
        ++ summary_lines (map field_name (filter valid_field fields))
                         (rejected fields) |}).
Proof.
  intros R.
  unfold generate_bigquery_schema_from_parquet, bind at 1.
  rewrite init_run; unfold try_except, bind at 1.
  rewrite generate_schema_reads with (fields := fields) by exact R.
  unfold bind at 1; rewrite print_summary_run.
  cbn [skipped_columns valid_columns stdout].
  destruct (accepted fields); reflexivity.
Qed.

(** The entry point on a file that does not read. *)
Lemma entry_point_read_error (parquet_file table_name e : str) (st : State) :
  read_table parquet_file = inl e ->
  fst (generate_bigquery_schema_from_parquet parquet_file table_name st) =
  Raise (lit "Error generating schema: "
         ++ lit "Error reading parquet file " ++ parquet_file ++ lit ": " ++ e).
Proof.
  intros R.
  unfold generate_bigquery_schema_from_parquet, bind at 1.
  rewrite init_run; unfold try_except, bind at 1.
  rewrite generate_schema_read_error with (e := e) by exact R.
  reflexivity.
Qed.

Lemma length_accepted_rejected (fields : Schema) :
  length (accepted fields) + length (rejected fields) = length fields.
Proof.
  unfold accepted, rejected; rewrite !length_map.
  induction fields as [|f fs IH]; simpl; [reflexivity|].
  destruct (valid_field f); simpl; lia.
Qed.

Lemma accepted_names (fields : Schema) :
  map fd_name (accepted fields) = map field_name (filter valid_field fields).
Proof. unfold accepted; rewrite map_map; reflexivity. Qed.

Lemma rejected_names (fields : Schema) :
  map sk_name (rejected fields)
  = map field_name (filter (fun f => negb (valid_field f)) fields).
Proof. unfold rejected; rewrite map_map; reflexivity. Qed.

(** Validity is a property of the name: two fields of one name are accepted
    together or rejected together. *)
Lemma valid_field_name (f g : Field) :
  field_name f = field_name g -> valid_field f = valid_field g.
Proof. unfold valid_field; intros ->; reflexivity. Qed.

Lemma accepted_name_iff (fields : Schema) (f : Field) :
  In f fields ->
  (In (field_name f) (map fd_name (accepted fields)) <-> valid_field f = true).
Proof.
  intros Hf; rewrite accepted_names, in_map_iff; split.
  - intros (g & E & Hg); apply filter_In in Hg.
    rewrite (valid_field_name f g) by (symmetry; exact E); tauto.
  - intros V; exists f; split; [reflexivity | apply filter_In; tauto].
Qed.

Lemma rejected_name_iff (fields : Schema) (f : Field) :
  In f fields ->
  (In (field_name f) (map sk_name (rejected fields)) <-> valid_field f = false).
Proof.
  intros Hf; rewrite rejected_names, in_map_iff; split.
  - intros (g & E & Hg); apply filter_In in Hg.
    rewrite (valid_field_name f g) by (symmetry; exact E).
    destruct Hg as [_ N]; apply negb_true_iff in N; exact N.
  - intros V; exists f; split; [reflexivity|].
    apply filter_In; split; [exact Hf | rewrite V; reflexivity].
Qed.
End GeneratorFacts.

Lemma filter_names (ud : UnicodeData) (fields : Schema) :
  map field_name (filter valid_field fields)
  = filter valid_name (names fields).
Proof.
  unfold names; induction fields as [|f fs IH]; simpl; [reflexivity|].
  unfold valid_field at 1, valid_name at 1.
  destruct (fst (is_valid_column_name (field_name f))); simpl; congruence.
Qed.

Lemma filter_names_neg (ud : UnicodeData) (fields : Schema) :
  map field_name (filter (fun f => negb (valid_field f)) fields)
  = filter (fun n => negb (valid_name n)) (names fields).
Proof.
  unfold names; induction fields as [|f fs IH]; simpl; [reflexivity|].
  unfold valid_field at 1, valid_name at 1.
  destruct (fst (is_valid_column_name (field_name f))); simpl; congruence.
Qed.

(** C1. Whatever fields the file has, [generate_schema] puts each of them in
    exactly one of its two outputs -- the returned field definitions or the
    skipped-column list -- so the two lengths add up to the number of
    fields. *)
Theorem generate_schema_partitions :
  forall (ud : UnicodeData) (arrow : Arrow) (parquet_file : str)
         (fields : Schema) (st : State),
    read_table parquet_file = inr fields ->
    exists bq_schema st',
      generate_schema parquet_file st = (Return bq_schema, st')
      /\ length bq_schema + length (skipped_columns st') = length fields
      /\ forall f, In f fields ->
           (In (field_name f) (map fd_name bq_schema)
            /\ ~ In (field_name f) (map sk_name (skipped_columns st')))
           \/ (~ In (field_name f) (map fd_name bq_schema)
               /\ In (field_name f) (map sk_name (skipped_columns st'))).
Proof.
  intros ud arrow parquet_file fields st R.
  eexists; eexists; split; [apply generate_schema_reads; exact R|].
  cbn [skipped_columns]; split; [apply length_accepted_rejected|].
  intros f Hf.
  rewrite (accepted_name_iff _ _ Hf), (rejected_name_iff _ _ Hf).
  destruct (valid_field f); [left | right]; split; congruence.
Qed.

Lemma generate_schema_partitions_witness :
  @read_table sample_files (lit "data.parquet") = inr sample_schema
  /\ exists bq_schema st',
      @generate_schema ascii_data sample_files (lit "data.parquet") empty_state
      = (Return bq_schema, st')
      /\ length bq_schema + length (skipped_columns st') = length sample_schema
      /\ forall f, In f sample_schema ->
           (In (field_name f) (map fd_name bq_schema)
            /\ ~ In (field_name f) (map sk_name (skipped_columns st')))
           \/ (~ In (field_name f) (map fd_name bq_schema)
               /\ In (field_name f) (map sk_name (skipped_columns st'))).
Proof.
  split; [reflexivity|].
  apply (@generate_schema_partitions ascii_data sample_files
           (lit "data.parquet") sample_schema empty_state).
  reflexivity.
Defined.

(** C6. Both outputs of [generate_schema] keep the source column order: the
    returned definitions are the valid fields in source order with the
    rejected ones removed, and the skipped-column list holds the rejected
    fields in source order, one record each. *)
Theorem generate_schema_preserves_order :
  forall (ud : UnicodeData) (arrow : Arrow) (parquet_file : str)
         (fields : Schema) (st : State),
    read_table parquet_file = inr fields ->
    exists bq_schema st',
      generate_schema parquet_file st = (Return bq_schema, st')
      /\ bq_schema = map field_def_of (filter valid_field fields)
      /\ map fd_name bq_schema = filter valid_name (names fields)
      /\ skipped_columns st'
         = map (fun f => skipped_entry f (rejection_reason f))
               (filter (fun f => negb (valid_field f)) fields)
      /\ map sk_name (skipped_columns st')
         = filter (fun n => negb (valid_name n)) (names fields).
Proof.
  intros ud arrow parquet_file fields st R.
  eexists; eexists; split; [apply generate_schema_reads; exact R|].
  cbn [skipped_columns].
  split; [reflexivity|].
  split; [rewrite accepted_names; apply filter_names|].
  split; [reflexivity|].
  rewrite rejected_names; apply filter_names_neg.
Qed.

Lemma generate_schema_preserves_order_witness :
  @read_table sample_files (lit "data.parquet") = inr sample_schema
  /\ exists bq_schema st',
      @generate_schema ascii_data sample_files (lit "data.parquet") empty_state
      = (Return bq_schema, st')
      /\ bq_schema = map (@field_def_of) (filter (@valid_field ascii_data) sample_schema)
      /\ map fd_name bq_schema = filter (@valid_name ascii_data) (names sample_schema)
      /\ skipped_columns st'
         = map (fun f => @skipped_entry sample_files f (@rejection_reason ascii_data f))
               (filter (fun f => negb (@valid_field ascii_data f)) sample_schema)
      /\ map sk_name (skipped_columns st')
         = filter (fun n => negb (@valid_name ascii_data n)) (names sample_schema).
Proof.
  split; [reflexivity|].
  apply (@generate_schema_preserves_order ascii_data sample_files
           (lit "data.parquet") sample_schema empty_state).
  reflexivity.
Defined.

(** C7. The mode of every accepted field follows the nullable flag of its
    source field: NULLABLE when the field is nullable, REQUIRED otherwise. *)
Theorem generate_schema_mode :
  forall (ud : UnicodeData) (arrow : Arrow) (parquet_file : str)
         (fields : Schema) (st : State),
    read_table parquet_file = inr fields ->
    exists bq_schema st',
      generate_schema parquet_file st = (Return bq_schema, st')
      /\ Forall2
           (fun f d =>
              fd_name d = field_name f
              /\ fd_mode d = if field_nullable f
                             then lit "NULLABLE" else lit "REQUIRED")
           (filter valid_field fields) bq_schema.
Proof.
  intros ud arrow parquet_file fields st R.
  eexists; eexists; split; [apply generate_schema_reads; exact R|].
  unfold accepted.
  induction (filter valid_field fields) as [|f fs IH]; simpl; constructor.
  - split; reflexivity.
  - exact IH.
Qed.

(** The scenario of C7: the field [("id", Integer, nullable=false)] yields
    [("id", INTEGER, REQUIRED)]. *)
Lemma generate_schema_mode_witness :
  @read_table sample_files (lit "id.parquet")
  = inr [field (lit "id") (IntegerType 64 true) false]
  /\ (exists bq_schema st',
        @generate_schema ascii_data sample_files (lit "id.parquet") empty_state
        = (Return bq_schema, st')
        /\ Forall2
             (fun f d =>
                fd_name d = field_name f
                /\ fd_mode d = if field_nullable f
                               then lit "NULLABLE" else lit "REQUIRED")
             (filter (@valid_field ascii_data)
                     [field (lit "id") (IntegerType 64 true) false])
             bq_schema)
  /\ fst (@generate_schema ascii_data sample_files (lit "id.parquet") empty_state)
     = Return [ {| fd_name := lit "id"; fd_type := lit "INTEGER";
                   fd_mode := lit "REQUIRED" |} ].
Proof.
  split; [reflexivity|].
  split; [|reflexivity].
  apply (@generate_schema_mode ascii_data sample_files (lit "id.parquet")
           [field (lit "id") (IntegerType 64 true) false] empty_state).
  reflexivity.
Defined.



(** When the file does not read, the exception leaves [generate_schema]
    before the reset: the accumulators keep what they held. *)
Remark generate_schema_read_error_keeps_accumulators :
  forall (ud : UnicodeData) (arrow : Arrow) (parquet_file e : str) (st : State),
    read_table parquet_file = inl e ->
    skipped_columns (snd (generate_schema parquet_file st)) = skipped_columns st
    /\ valid_columns (snd (generate_schema parquet_file st)) = valid_columns st.
Proof.
  intros ud arrow parquet_file e st R.
  rewrite (generate_schema_read_error parquet_file st R).
  split; reflexivity.
Qed.

(** ** The DDL and the column tuples *)

Lemma fold_left_append {A B} (g : A -> B) (l : list A) :
  forall acc : list B,
    fold_left (fun defs x => defs ++ [g x]) l acc = acc ++ map g l.
Proof.
  induction l as [|x l IH]; intros acc; simpl.
  - rewrite app_nil_r; reflexivity.
  - rewrite IH, <- app_assoc; reflexivity.
Qed.

Lemma field_definition_suffix (f : FieldDef) :
  field_definition f
  = ddl_field_base f
    ++ (if str_eq_dec (fd_mode f) (lit "REQUIRED") then lit " NOT NULL" else []).
Proof.
  unfold field_definition, ddl_field_base.
  destruct (str_eq_dec (fd_mode f) (lit "REQUIRED")) as [E|N].
  - apply str_eqb_eq in E; rewrite E; reflexivity.
  - destruct (str_eqb (fd_mode f) (lit "REQUIRED")) eqn:E.
    + apply str_eqb_eq in E; contradiction.
    + rewrite app_nil_r; reflexivity.
Qed.

Lemma field_definition_not_null (f : FieldDef) :
  field_definition f = ddl_field_base f ++ lit " NOT NULL"
  <-> fd_mode f = lit "REQUIRED".
Proof.
  rewrite field_definition_suffix.
  destruct (str_eq_dec (fd_mode f) (lit "REQUIRED")) as [E|N].
  - tauto.
  - split; [|contradiction].
    intros H; apply app_inv_head in H; discriminate.
Qed.

Lemma ddl_field_line_eq (f : FieldDef) (last : bool) :
  ddl_field_line f last
  = field_definition f ++ (if last then [] else lit ",") ++ [newline].
Proof.
  rewrite field_definition_suffix; unfold ddl_field_line.
  rewrite <- !app_assoc; reflexivity.
Qed.

Lemma join_field_definitions (schema : list FieldDef) :
  schema <> [] ->
  join (lit "," ++ [newline]) (map field_definition schema) ++ [newline]
  = ddl_field_lines schema.
Proof.
  induction schema as [|f rest IH]; [congruence|]; intros _.
  destruct rest as [|g rest].
  - cbn [map join ddl_field_lines]; rewrite ddl_field_line_eq; reflexivity.
  - change (ddl_field_lines (f :: g :: rest))
      with (ddl_field_line f false ++ ddl_field_lines (g :: rest)).
    rewrite <- IH by discriminate.
    change (join (lit "," ++ [newline]) (map field_definition (f :: g :: rest)))
      with (field_definition f ++ (lit "," ++ [newline])
            ++ join (lit "," ++ [newline]) (map field_definition (g :: rest))).
    rewrite ddl_field_line_eq, <- !app_assoc; reflexivity.
Qed.

(** C9. For a non-empty schema, [generate_ddl] is the header
    [CREATE TABLE `table` (], then one line [  `name` TYPE] per field in the
    order of the schema, with [ NOT NULL] appended exactly when the mode is
    REQUIRED and a comma after every line but the last, then [);]; and
    [get_column_tuples] pairs the names with the types of the same schema, in
    the same order, without the mode. *)
Theorem generate_ddl_format :
  forall (schema : list FieldDef) (table_name : str),
    schema <> [] ->
    generate_ddl schema table_name = ddl_text table_name schema
    /\ (forall f, In f schema ->
          (field_definition f = ddl_field_base f ++ lit " NOT NULL"
           <-> fd_mode f = lit "REQUIRED")
          /\ (field_definition f = ddl_field_base f
              <-> fd_mode f <> lit "REQUIRED"))
    /\ get_column_tuples schema
       = combine (map fd_name schema) (map fd_type schema).
Proof.
  intros schema table_name NE; split; [|split].
  - unfold generate_ddl, ddl_text; cbv zeta.
    rewrite fold_left_append; cbn [app join].
    rewrite <- (join_field_definitions NE), <- !app_assoc; reflexivity.
  - intros f _; split; [apply field_definition_not_null|].
    rewrite field_definition_suffix.
    destruct (str_eq_dec (fd_mode f) (lit "REQUIRED")) as [E|N].
    + split; [|contradiction].
      intros H; rewrite <- (app_nil_r (ddl_field_base f)) in H at 2.
      apply app_inv_head in H; discriminate.
    + rewrite app_nil_r; tauto.
  - unfold get_column_tuples.
    induction schema as [|f rest IH]; [congruence|].
    destruct rest as [|g rest]; [reflexivity|].
    cbn [map combine]; f_equal; apply IH; discriminate.
Qed.

Lemma generate_ddl_format_witness :
  sample_ddl_schema <> []
  /\ generate_ddl sample_ddl_schema (lit "t")
     = lit "CREATE TABLE `t` (" ++ [newline]
       ++ lit "  `id` INTEGER NOT NULL," ++ [newline]
       ++ lit "  `tags` ARRAY<STRING>" ++ [newline]
       ++ lit ");"
  /\ get_column_tuples sample_ddl_schema
     = [ (lit "id", lit "INTEGER"); (lit "tags", lit "ARRAY<STRING>") ].
Proof.
  assert (NE : sample_ddl_schema <> []) by discriminate.
  split; [exact NE|].
  destruct (@generate_ddl_format sample_ddl_schema (lit "t") NE) as (D & _ & T).
  split; [rewrite D | rewrite T]; reflexivity.
Defined.

(** ** The entry point *)




(** C10. A file with no columns fails with the same exception as a file all
    of whose columns are rejected, although it has no rejection to report:
    the entry point fails because nothing was accepted. *)
Theorem empty_schema_fails_like_all_rejected :
  forall (ud : UnicodeData) (arrow : Arrow)
         (empty_file rejected_file table_name : str) (fields : Schema)
         (st st' : State),
    read_table empty_file = inr [] ->
    read_table rejected_file = inr fields ->
    forallb (fun f => negb (valid_field f)) fields = true ->
    let run_empty :=
      generate_bigquery_schema_from_parquet empty_file table_name st in
    let run_rejected :=
      generate_bigquery_schema_from_parquet rejected_file table_name st' in
    fst run_empty
    = Raise (lit "Error generating schema: No valid columns found! All columns were skipped.")
    /\ skipped_columns (snd run_empty) = []
    /\ fst run_rejected = fst run_empty
    /\ length (skipped_columns (snd run_rejected)) = length fields.
Proof.
  intros ud arrow empty_file rejected_file table_name fields st st' RE RR AR.
  cbv zeta.
  rewrite (entry_point_reads empty_file table_name st RE).
  rewrite (entry_point_reads rejected_file table_name st' RR).
  cbn [fst snd skipped_columns].
  assert (A : accepted fields = []).
  { unfold accepted.
    replace (filter valid_field fields) with (@nil Field); [reflexivity|].
    clear RR; induction fields as [|f fs IH]; [reflexivity|].
    simpl in AR; apply andb_true_iff in AR; destruct AR as [Nf AR].
    apply negb_true_iff in Nf; simpl; rewrite Nf; apply IH; exact AR. }
  pose proof (length_accepted_rejected fields) as L.
  rewrite A in *; simpl in L.
  repeat split; try reflexivity; exact L.
Qed.

Lemma empty_schema_fails_like_all_rejected_witness :
  @read_table sample_files (lit "empty.parquet") = inr []
  /\ @read_table sample_files (lit "rejected.parquet") = inr rejected_schema
  /\ forallb (fun f => negb (@valid_field ascii_data f)) rejected_schema = true
  /\ fst (@generate_bigquery_schema_from_parquet ascii_data sample_files
            (lit "empty.parquet") default_table_name empty_state)
     = Raise (lit "Error generating schema: No valid columns found! All columns were skipped.")
  /\ fst (@generate_bigquery_schema_from_parquet ascii_data sample_files
            (lit "rejected.parquet") default_table_name empty_state)
     = fst (@generate_bigquery_schema_from_parquet ascii_data sample_files
              (lit "empty.parquet") default_table_name empty_state).
Proof.
  assert (RE : @read_table sample_files (lit "empty.parquet") = inr [])
    by reflexivity.
  assert (RR : @read_table sample_files (lit "rejected.parquet")
               = inr rejected_schema) by reflexivity.
  assert (AR : forallb (fun f => negb (@valid_field ascii_data f))
                 rejected_schema = true) by reflexivity.
  split; [exact RE|]. split; [exact RR|]. split; [exact AR|].
  destruct (@empty_schema_fails_like_all_rejected ascii_data sample_files
              (lit "empty.parquet") (lit "rejected.parquet")
              default_table_name rejected_schema empty_state empty_state
              RE RR AR)
    as (H1 & _ & H3 & _).
  split; [exact H1 | exact H3].
Defined.

(** ** Worked examples *)

Example ex_valid_id :
  @is_valid_column_name ascii_data (lit "id") = (true, []).
Proof. reflexivity. Qed.

Example ex_empty_name :
  @is_valid_column_name ascii_data [] = (false, lit "Empty column name").
Proof. reflexivity. Qed.

Example ex_leading_digit :
  @is_valid_column_name ascii_data (lit "1st")
  = (false, lit "Column name must start with letter or underscore").
Proof. reflexivity. Qed.

Example ex_hyphen :
  @is_valid_column_name ascii_data (lit "bad-name")
  = (false, lit "Column name contains invalid characters").
Proof. reflexivity. Qed.

Example ex_str_of_nat :
  str_of_nat 0 = lit "0" /\ str_of_nat 1205 = lit "1205".
Proof. split; reflexivity. Qed.

Example ex_sample_run :
  @generate_schema ascii_data sample_files (lit "data.parquet") empty_state
  = (Return
       [ {| fd_name := lit "id"; fd_type := lit "INTEGER";
            fd_mode := lit "REQUIRED" |};
         {| fd_name := lit "tags"; fd_type := lit "ARRAY<STRING>";
            fd_mode := lit "NULLABLE" |} ],
     {| skipped_columns :=
          [ {| sk_name := lit "_partition_date";
               sk_reason :=
                 lit "Column name starts with restricted prefix '_PARTITION'";
               sk_type := lit "date32" |};
            {| sk_name := [];
               sk_reason := lit "Empty column name";
               sk_type := lit "int64" |} ];
        valid_columns := [lit "id"; lit "tags"];
        stdout :=
          [ lit "Reading parquet file: data.parquet";
            lit "Processing 4 columns...";
            [];
            lit "OK id                             -> INTEGER         (REQUIRED)";
            lit "SKIPPING column '_partition_date': Column name starts with restricted prefix '_PARTITION'";
            lit "OK tags                           -> ARRAY<STRING>   (NULLABLE)";
            lit "SKIPPING column '': Empty column name" ] |}).
Proof. vm_compute. reflexivity. Qed.

Example ex_missing_file :
  fst (@generate_bigquery_schema_from_parquet ascii_data sample_files
         (lit "nowhere.parquet") default_table_name empty_state)
  = Raise (lit "Error generating schema: Error reading parquet file nowhere.parquet: No such file or directory").
Proof. vm_compute. reflexivity. Qed.

Example ex_empty_ddl :
  generate_ddl [] (lit "t")
  = lit "CREATE TABLE `t` (" ++ [newline] ++ [newline] ++ lit ");".
Proof. reflexivity. Qed.

(** * Further properties of the schema generator *)

(** ** The validator's answer *)

Lemma reasons_nonempty (n : nat) (p : str) :
  reason_empty <> [] /\ reason_too_long n <> [] /\ reason_prefix p <> []
  /\ reason_first_char <> [] /\ reason_invalid_chars <> [].
Proof. repeat split; discriminate. Qed.

(** X1. The reason returned by [is_valid_column_name] is the empty string
    exactly when the name is valid: every rejection carries a non-empty
    reason. *)
Theorem is_valid_column_name_reason_empty_iff_valid :
  forall (ud : UnicodeData) (name : str),
    fst (is_valid_column_name name) = true
    <-> snd (is_valid_column_name name) = [].
Proof.
  intros ud name.
  destruct (reasons_nonempty (length name) []) as (R1 & R2 & _ & R4 & R5).
  destruct (is_valid_column_name_sound name) as [E|NE NL|p NE LE Hp Sp| | |];
    cbn [fst snd].
  - split; [discriminate | intros HR; contradiction].
  - split; [discriminate | intros HR; contradiction].
  - split; [discriminate | intros HR; discriminate].
  - split; [discriminate | intros HR; contradiction].
  - split; [discriminate | intros HR; contradiction].
  - split; reflexivity.
Qed.

(** ** The type mapping *)

Lemma get_bigquery_type_not_list (t : DataType) :
  list_depth t = 0 -> In (get_bigquery_type t) base_type_names.
Proof.
  destruct t; cbn [list_depth]; try discriminate; intros _;
    unfold base_type_names; cbn [get_bigquery_type]; cbn -[lit]; tauto.
Qed.

Lemma list_depth_innermost (t : DataType) : list_depth (innermost_type t) = 0.
Proof. induction t; cbn; auto. Qed.

(** X2. The BigQuery type of any Arrow type is one of the nine base names,
    wrapped in as many [ARRAY<...>] layers as the Arrow type has list layers:
    nested lists come out as nested arrays, never flattened. *)
Theorem get_bigquery_type_shape :
  forall t : DataType,
    get_bigquery_type t
    = concat (repeat (lit "ARRAY<") (list_depth t))
      ++ get_bigquery_type (innermost_type t)
      ++ repeat 62%N (list_depth t)
    /\ In (get_bigquery_type (innermost_type t)) base_type_names.
Proof.
  intros t; split;
    [|apply get_bigquery_type_not_list, list_depth_innermost].
  induction t as [| | | | | | | |e IH|e IH| |]; try (cbn -[lit]; rewrite app_nil_r; reflexivity).
  - change (get_bigquery_type (ListType e))
      with (lit "ARRAY<" ++ get_bigquery_type e ++ lit ">").
    rewrite IH at 1; cbn [list_depth innermost_type repeat concat].
    rewrite (repeat_cons (list_depth e) 62%N), <- !app_assoc; reflexivity.
  - change (get_bigquery_type (LargeListType e))
      with (lit "ARRAY<" ++ get_bigquery_type e ++ lit ">").
    rewrite IH at 1; cbn [list_depth innermost_type repeat concat].
    rewrite (repeat_cons (list_depth e) 62%N), <- !app_assoc; reflexivity.
Qed.

(** ** The accumulators *)

(** X3. After [generate_schema] on a file that reads, [valid_columns] holds
    exactly the names of the returned field definitions, in order, and the
    numbers of valid and skipped columns add up to the number of columns of
    the file. *)
Theorem generate_schema_accumulators_agree :
  forall (ud : UnicodeData) (arrow : Arrow) (parquet_file : str)
         (fields : Schema) (st : State),
    read_table parquet_file = inr fields ->
    exists bq_schema st',
      generate_schema parquet_file st = (Return bq_schema, st')
      /\ valid_columns st' = map fd_name bq_schema
      /\ length (valid_columns st') + length (skipped_columns st')
         = length fields.
Proof.
  intros ud arrow parquet_file fields st R.
  eexists; eexists; split; [apply generate_schema_reads; exact R|].
  cbn [valid_columns skipped_columns].
  rewrite <- accepted_names; split; [reflexivity|].
  rewrite length_map; apply length_accepted_rejected.
Qed.

Lemma generate_schema_accumulators_agree_witness :
  @read_table sample_files (lit "data.parquet") = inr sample_schema
  /\ exists bq_schema st',
      @generate_schema ascii_data sample_files (lit "data.parquet") empty_state
      = (Return bq_schema, st')
      /\ valid_columns st' = map fd_name bq_schema
      /\ length (valid_columns st') + length (skipped_columns st')
         = length sample_schema.
Proof.
  split; [reflexivity|].
  apply (@generate_schema_accumulators_agree ascii_data sample_files
           (lit "data.parquet") sample_schema empty_state).
  reflexivity.
Defined.

(** X4. When the file cannot be read, [generate_schema] raises "Error reading
    parquet file <path>: <cause>" after printing its first line only, and the
    two accumulators still hold what an earlier call left in them. *)
Theorem generate_schema_unreadable_file :
  forall (ud : UnicodeData) (arrow : Arrow) (parquet_file cause : str)
         (st : State),
    read_table parquet_file = inl cause ->
    generate_schema parquet_file st
    = (Raise (lit "Error reading parquet file " ++ parquet_file
              ++ lit ": " ++ cause),
       {| skipped_columns := skipped_columns st;
          valid_columns := valid_columns st;
          stdout := stdout st
                    ++ [lit "Reading parquet file: " ++ parquet_file] |}).
Proof.
  intros ud arrow parquet_file cause st R.
  apply generate_schema_read_error; exact R.
Qed.

Lemma generate_schema_unreadable_file_witness :
  @read_table sample_files (lit "nowhere.parquet")
  = inl (lit "No such file or directory")
  /\ (let st := snd (@generate_schema ascii_data sample_files
                       (lit "data.parquet") empty_state) in
      valid_columns
        (snd (@generate_schema ascii_data sample_files (lit "nowhere.parquet") st))
      = [lit "id"; lit "tags"]).
Proof.
  split; [reflexivity|].
  cbv zeta.
  rewrite (@generate_schema_unreadable_file ascii_data sample_files
             (lit "nowhere.parquet") (lit "No such file or directory")
             _ eq_refl).
  reflexivity.
Defined.

(** X5. When the file cannot be read, the entry point raises the read error
    wrapped a second time, "Error generating schema: Error reading parquet
    file <path>: <cause>"; no summary is printed, and the fresh generator's
    accumulators are empty. *)
Theorem entry_point_unreadable_file :
  forall (ud : UnicodeData) (arrow : Arrow)
         (parquet_file table_name cause : str) (st : State),
    read_table parquet_file = inl cause ->
    generate_bigquery_schema_from_parquet parquet_file table_name st
    = (Raise (lit "Error generating schema: Error reading parquet file "
              ++ parquet_file ++ lit ": " ++ cause),
       {| skipped_columns := [];
          valid_columns := [];
          stdout := stdout st
                    ++ [lit "Reading parquet file: " ++ parquet_file] |}).
Proof.
  intros ud arrow parquet_file table_name cause st R.
  unfold generate_bigquery_schema_from_parquet, bind at 1.
  rewrite init_run; unfold try_except, bind at 1.
  rewrite generate_schema_read_error with (e := cause) by exact R.
  cbn [skipped_columns valid_columns stdout]; unfold raise, reading_line.
  change (lit "Error generating schema: Error reading parquet file ")
    with (lit "Error generating schema: " ++ lit "Error reading parquet file ").
  rewrite <- !app_assoc; reflexivity.
Qed.

Lemma entry_point_unreadable_file_witness :
  @read_table sample_files (lit "nowhere.parquet")
  = inl (lit "No such file or directory")
  /\ fst (@generate_bigquery_schema_from_parquet ascii_data sample_files
            (lit "nowhere.parquet") default_table_name empty_state)
     = Raise (lit "Error generating schema: Error reading parquet file nowhere.parquet: No such file or directory").
Proof.
  split; [reflexivity|].
  rewrite (@entry_point_unreadable_file ascii_data sample_files
             (lit "nowhere.parquet") default_table_name
             (lit "No such file or directory") empty_state eq_refl).
  reflexivity.
Defined.

(** ** What the entry point returns *)

Lemma generate_ddl_text (schema : list FieldDef) (table_name : str) :
  schema <> [] -> generate_ddl schema table_name = ddl_text table_name schema.
Proof.
  intros NE; unfold generate_ddl, ddl_text; cbv zeta.
  rewrite fold_left_append; cbn [app join].
  rewrite <- (join_field_definitions NE), <- !app_assoc; reflexivity.
Qed.

Lemma valid_name_rules (ud : UnicodeData) (name : str) :
  valid_name name = true ->
  rule_nonempty name /\ rule_length name /\ rule_no_restricted_prefix name
  /\ rule_first_char name /\ rule_all_chars name.
Proof.
  unfold valid_name; intros V.
  destruct (is_valid_column_name_sound name); cbn [fst] in V;
    try discriminate; tauto.
Qed.

(** X6. When the entry point returns, the column tuples are the names and
    BigQuery types of the file's valid columns in source order, the DDL is
    the laid-out text for those columns, and every returned column name
    satisfies all five naming rules -- in particular none carries a
    restricted prefix. *)
Theorem entry_point_returns_valid_columns :
  forall (ud : UnicodeData) (arrow : Arrow) (parquet_file table_name : str)
         (fields : Schema) (st st' : State)
         (ddl_statement : str) (column_tuples : list (str * str)),
    read_table parquet_file = inr fields ->
    generate_bigquery_schema_from_parquet parquet_file table_name st
    = (Return (ddl_statement, column_tuples), st') ->
    column_tuples
    = map (fun f => (field_name f, get_bigquery_type (field_type f)))
          (filter valid_field fields)
    /\ map fst column_tuples = filter valid_name (names fields)
    /\ ddl_statement
       = ddl_text table_name (map field_def_of (filter valid_field fields))
    /\ forall name, In name (map fst column_tuples) ->
         rule_nonempty name /\ rule_length name
         /\ rule_no_restricted_prefix name
         /\ rule_first_char name /\ rule_all_chars name.
Proof.
  intros ud arrow parquet_file table_name fields st st' ddl tuples R H.
  rewrite (entry_point_reads parquet_file table_name st R) in H.
  assert (T : get_column_tuples (accepted fields)
              = map (fun f => (field_name f, get_bigquery_type (field_type f)))
                    (filter valid_field fields)).
  { unfold get_column_tuples, accepted; rewrite map_map; reflexivity. }
  assert (N : map fst (get_column_tuples (accepted fields))
              = filter valid_name (names fields)).
  { rewrite T, map_map; cbn [fst]; apply filter_names. }
  assert (D : accepted fields <> [] ->
              generate_ddl (accepted fields) table_name
              = ddl_text table_name (map field_def_of (filter valid_field fields))).
  { apply generate_ddl_text. }
  destruct (accepted fields) as [|d ds] eqn:A; [discriminate|].
  injection H as Hd Ht _; subst ddl tuples.
  split; [exact T|]. split; [exact N|].
  split; [apply D; discriminate|].
  intros name Hn.
  change (In name (map fst (get_column_tuples (d :: ds)))) in Hn.
  rewrite N in Hn; apply filter_In in Hn.
  apply valid_name_rules; tauto.
Qed.

Lemma entry_point_returns_valid_columns_witness :
  @read_table sample_files (lit "data.parquet") = inr sample_schema
  /\ exists ddl_statement st',
      @generate_bigquery_schema_from_parquet ascii_data sample_files
        (lit "data.parquet") (lit "t") empty_state
      = (Return (ddl_statement,
                 [ (lit "id", lit "INTEGER");
                   (lit "tags", lit "ARRAY<STRING>") ]), st')
      /\ forall name, In name [lit "id"; lit "tags"] ->
           @rule_no_restricted_prefix ascii_data name.
Proof.
  split; [reflexivity|].
  destruct (@generate_bigquery_schema_from_parquet ascii_data sample_files
              (lit "data.parquet") (lit "t") empty_state)
    as [[[ddl tuples]|e] st'] eqn:Run; [|vm_compute in Run; discriminate].
  destruct (@entry_point_returns_valid_columns ascii_data sample_files
              (lit "data.parquet") (lit "t") sample_schema empty_state st'
              ddl tuples eq_refl Run) as (T & N & _ & V).
  exists ddl, st'; split.
  - rewrite T; reflexivity.
  - intros name Hn; apply V; rewrite N; exact Hn.
Defined.

(** ** Columns are decided one by one *)

Lemma accepted_app (ud : UnicodeData) (xs ys : Schema) :
  accepted (xs ++ ys) = accepted xs ++ accepted ys.
Proof. unfold accepted; rewrite filter_app, map_app; reflexivity. Qed.

Lemma rejected_app (ud : UnicodeData) (arrow : Arrow) (xs ys : Schema) :
  rejected (xs ++ ys) = rejected xs ++ rejected ys.
Proof. unfold rejected; rewrite filter_app, map_app; reflexivity. Qed.

(** X7. No column's outcome depends on another column: for a file whose
    columns are those of a first file followed by those of a second, the
    returned definitions and the skipped-column list are the concatenations
    of what [generate_schema] gives for the two files. *)
Theorem generate_schema_concatenation :
  forall (ud : UnicodeData) (arrow : Arrow) (file1 file2 file12 : str)
         (fields1 fields2 : Schema) (st1 st2 st12 : State),
    read_table file1 = inr fields1 ->
    read_table file2 = inr fields2 ->
    read_table file12 = inr (fields1 ++ fields2) ->
    exists bq1 bq2 st1' st2' st12',
      generate_schema file1 st1 = (Return bq1, st1')
      /\ generate_schema file2 st2 = (Return bq2, st2')
      /\ generate_schema file12 st12 = (Return (bq1 ++ bq2), st12')
      /\ skipped_columns st12' = skipped_columns st1' ++ skipped_columns st2'
      /\ valid_columns st12' = valid_columns st1' ++ valid_columns st2'.
Proof.
  intros ud arrow file1 file2 file12 fields1 fields2 st1 st2 st12 R1 R2 R12.
  do 5 eexists.
  split; [apply generate_schema_reads; exact R1|].
  split; [apply generate_schema_reads; exact R2|].
  rewrite (generate_schema_reads file12 st12 R12).
  cbn [skipped_columns valid_columns].
  rewrite accepted_app, rejected_app, filter_app, map_app.
  repeat split.
Qed.

Lemma generate_schema_concatenation_witness :
  @read_table split_files (lit "head.parquet") = inr id_schema
  /\ @read_table split_files (lit "tail.parquet") = inr rejected_schema
  /\ @read_table split_files (lit "both.parquet")
     = inr (id_schema ++ rejected_schema)
  /\ exists bq1 bq2 st1' st2' st12',
      @generate_schema ascii_data split_files (lit "head.parquet") empty_state
      = (Return bq1, st1')
      /\ @generate_schema ascii_data split_files (lit "tail.parquet") empty_state
         = (Return bq2, st2')
      /\ @generate_schema ascii_data split_files (lit "both.parquet") empty_state
         = (Return (bq1 ++ bq2), st12')
      /\ skipped_columns st12' = skipped_columns st1' ++ skipped_columns st2'
      /\ valid_columns st12' = valid_columns st1' ++ valid_columns st2'.
Proof.
  split; [reflexivity|]. split; [reflexivity|]. split; [reflexivity|].
  apply (@generate_schema_concatenation ascii_data split_files
           (lit "head.parquet") (lit "tail.parquet") (lit "both.parquet")
           id_schema rejected_schema empty_state empty_state empty_state);
    reflexivity.
Defined.

(** ** The summary *)

(** X8. [print_summary] never raises and leaves both accumulators as they
    are.  It prints seven lines -- among them the two counts -- and, when
    some column was skipped, a heading, one line per skipped column in the
    order of the list, and a closing blank line. *)
Theorem print_summary_effect :
  forall st : State,
    exists lines,
      print_summary st
      = (Return tt,
         {| skipped_columns := skipped_columns st;
            valid_columns := valid_columns st;
            stdout := stdout st ++ lines |})
      /\ firstn 7 lines
         = [ []; rule_line; lit "SCHEMA GENERATION SUMMARY"; rule_line;
             lit "Valid columns: " ++ str_of_nat (length (valid_columns st));
             lit "Skipped columns: "
             ++ str_of_nat (length (skipped_columns st));
             [] ]
      /\ skipn 7 lines
         = match skipped_columns st with
           | [] => []
           | _ :: _ =>
               [lit "Skipped columns details:"]
               ++ map detail_line (skipped_columns st) ++ [[]]
           end
      /\ length lines
         = match skipped_columns st with
           | [] => 7
           | _ :: _ => 9 + length (skipped_columns st)
           end.
Proof.
  intros st; eexists; split; [apply print_summary_run|].
  unfold summary_lines.
  split; [reflexivity|]. split; [reflexivity|].
  destruct (skipped_columns st) as [|c cs]; [reflexivity|].
  rewrite !length_app, length_map; cbn [length]; lia.
Qed.

(** ** The DDL, line by line *)

Lemma newlines_app (a b : str) : newlines (a ++ b) = newlines a + newlines b.
Proof. apply count_occ_app. Qed.

Lemma newlines_none (s : str) : no_newline s -> newlines s = 0.
Proof. intros H; apply count_occ_not_In; exact H. Qed.

Lemma newlines_field_line (f : FieldDef) (last : bool) :
  no_newline (fd_name f) -> no_newline (fd_type f) ->
  newlines (ddl_field_line f last) = 1.
Proof.
  intros Hn Ht; unfold ddl_field_line, ddl_field_base.
  rewrite !newlines_app, (newlines_none Hn), (newlines_none Ht).
  destruct (str_eq_dec (fd_mode f) (lit "REQUIRED")), last; reflexivity.
Qed.

Lemma newlines_field_lines (schema : list FieldDef) :
  Forall (fun f => no_newline (fd_name f) /\ no_newline (fd_type f)) schema ->
  newlines (ddl_field_lines schema) = length schema.
Proof.
  induction 1 as [|f rest [Hn Ht] _ IH]; [reflexivity|].
  destruct rest as [|g rest].
  - cbn [ddl_field_lines length]; apply newlines_field_line; assumption.
  - change (ddl_field_lines (f :: g :: rest))
      with (ddl_field_line f false ++ ddl_field_lines (g :: rest)).
    rewrite newlines_app, IH, (@newlines_field_line f false Hn Ht); reflexivity.
Qed.

(** X9. When neither the table name nor any column name or type contains a
    line break, the DDL of a non-empty schema has exactly one line break per
    column plus one: a header line, one line for each column, and the closing
    line. *)
Theorem generate_ddl_one_line_per_column :
  forall (schema : list FieldDef) (table_name : str),
    schema <> [] ->
    no_newline table_name ->
    Forall (fun f => no_newline (fd_name f) /\ no_newline (fd_type f)) schema ->
    newlines (generate_ddl schema table_name) = S (length schema).
Proof.
  intros schema table_name NE Ht Hs.
  rewrite (generate_ddl_text table_name NE); unfold ddl_text.
  rewrite !newlines_app, (newlines_none Ht), (newlines_field_lines Hs).
  cbn; lia.
Qed.

Lemma generate_ddl_one_line_per_column_witness :
  sample_ddl_schema <> []
  /\ no_newline (lit "t")
  /\ Forall (fun f => no_newline (fd_name f) /\ no_newline (fd_type f))
            sample_ddl_schema
  /\ newlines (generate_ddl sample_ddl_schema (lit "t")) = 3.
Proof.
  assert (NE : sample_ddl_schema <> []) by discriminate.
  assert (Ht : no_newline (lit "t"))
    by (unfold no_newline; cbn; intuition discriminate).
  assert (Hs : Forall (fun f => no_newline (fd_name f) /\ no_newline (fd_type f))
                      sample_ddl_schema)
    by (repeat constructor; unfold no_newline; cbn; intuition discriminate).
  split; [exact NE|]. split; [exact Ht|]. split; [exact Hs|].
  exact (@generate_ddl_one_line_per_column sample_ddl_schema (lit "t") NE Ht Hs).
Defined.

(** * Properties of the emulator client *)

Section EmulatorFacts.
Context {ud : UnicodeData} {arrow : Arrow} {net : Network}.

Lemma say_run (line : str) (s : Session) :
  say line s = (Done tt, with_output s [line]).
Proof. reflexivity. Qed.

Lemma with_output_output (s : Session) (xs ys : list str) :
  with_output (with_output s xs) ys = with_output s (xs ++ ys).
Proof. unfold with_output; cbn; rewrite <- app_assoc; reflexivity. Qed.

Lemma request_run (method : Method) (url : str) (json : option Json)
      (s : Session) :
  request method url json s
  = (match reply (attempted s)
             {| req_method := method; req_url := url; req_json := json |} with
     | Responded response => Done response
     | Refused ce cause =>
         Failed {| is_connection_error := ce; exn_text := cause |}
     end,
     with_request s {| req_method := method; req_url := url; req_json := json |}).
Proof.
  unfold request, with_request; cbv zeta.
  destruct (reply _ _); reflexivity.
Qed.
End EmulatorFacts.

(** X10. [cleanup_table] makes exactly one request, a DELETE of the table's
    URL.  Whatever status the emulator answers, the method returns without
    raising: status 204 is reported as success, every other status -- 200
    included -- only prints a warning with the status and the response text.
    An exception raised by the request itself is not caught. *)
Theorem cleanup_table_one_delete :
  forall (net : Network) (self : BigQueryEmulatorExternalTable)
         (table_name : str) (s : Session),
    let r := delete_request (table_url self table_name) in
    let started :=
      with_output s [lit "Cleaning up table " ++ table_name ++ lit "..."] in
    cleanup_table self table_name s
    = match reply (attempted s) r with
      | Responded response =>
          (Done tt,
           with_output (with_request started r)
             [ if status_code response =? 204
               then lit "Table " ++ table_name ++ lit " deleted successfully"
               else lit "Warning: Failed to delete table: "
                    ++ str_of_nat (status_code response) ++ lit " - "
                    ++ text response ])
      | Refused ce cause =>
          (Failed {| is_connection_error := ce; exn_text := cause |},
           with_request started r)
      end.
Proof.
  intros net self table_name s r started; subst r started.
  unfold cleanup_table, ebind at 1; rewrite say_run.
  cbv zeta; unfold ebind, requests_delete, delete_request; rewrite request_run.
  cbn [with_output attempted].
  destruct (reply (attempted s) _) as [response|ce cause]; [|reflexivity].
  destruct (status_code response =? 204); reflexivity.
Qed.

Section DatasetFacts.
Context {net : Network}.

(** [ensure_dataset_exists], reply by reply. *)
Lemma ensure_dataset_exists_run (self : BigQueryEmulatorExternalTable)
      (s : Session) :
  let g := get_request (dataset_url self) in
  let p := post_request (datasets_url self) (dataset_data self) in
  let started :=
    with_output s [lit "Ensuring dataset " ++ dataset_id self
                   ++ lit " exists..."] in
  ensure_dataset_exists self s
  = match reply (attempted s) g with
    | Refused ce cause =>
        (Failed {| is_connection_error := ce; exn_text := cause |},
         with_request started g)
    | Responded response =>
        if status_code response =? 200 then
          (Done tt,
           with_output (with_request started g)
             [lit "Dataset " ++ dataset_id self ++ lit " already exists"])
        else
          match reply (attempted s ++ [g]) p with
          | Refused ce cause =>
              (Failed {| is_connection_error := ce; exn_text := cause |},
               with_request (with_request started g) p)
          | Responded created =>
              if status_code created =? 200 then
                (Done tt,
                 with_output (with_request (with_request started g) p)
                   [lit "Created dataset " ++ dataset_id self])
              else
                (Failed {| is_connection_error := false;
                           exn_text := lit "Failed to create dataset: "
                                       ++ status_and_text created |},
                 with_request (with_request started g) p)
          end
    end.
Proof.
  intros g p started; subst g p started.
  unfold ensure_dataset_exists, ebind at 1; rewrite say_run.
  cbv zeta; unfold ebind at 1, requests_get, get_request; rewrite request_run.
  cbn [with_output attempted].
  destruct (reply (attempted s) _) as [response|ce cause]; [|reflexivity].
  destruct (status_code response =? 200); [reflexivity|].
  unfold ebind, requests_post, post_request; rewrite request_run.
  cbn [with_output with_request attempted].
  destruct (reply (attempted s ++ _) _) as [created|ce cause]; [|reflexivity].
  destruct (status_code created =? 200); reflexivity.
Qed.
End DatasetFacts.

(** X11. When the emulator answers 200 to the lookup of the dataset,
    [ensure_dataset_exists] returns after that single GET: it makes no
    request to create the dataset. *)
Theorem ensure_dataset_exists_present :
  forall (net : Network) (self : BigQueryEmulatorExternalTable) (s : Session)
         (response : Response),
    reply (attempted s) (get_request (dataset_url self)) = Responded response ->
    status_code response = 200 ->
    exists s',
      ensure_dataset_exists self s = (Done tt, s')
      /\ attempted s' = attempted s ++ [get_request (dataset_url self)]
      /\ stdout (console s')
         = stdout (console s)
           ++ [ lit "Ensuring dataset " ++ dataset_id self ++ lit " exists...";
                lit "Dataset " ++ dataset_id self ++ lit " already exists" ].
Proof.
  intros net self s response G OK.
  pose proof (ensure_dataset_exists_run self s) as Run; cbv zeta in Run.
  rewrite G, OK in Run; cbn [Nat.eqb] in Run.
  eexists; split; [exact Run|].
  cbn [with_output with_request attempted console stdout].
  rewrite <- app_assoc; split; reflexivity.
Qed.

Lemma ensure_dataset_exists_present_witness :
  let net := scripted [response_with 200 (lit "{}")] in
  exists s',
    @ensure_dataset_exists net default_emulator new_session = (Done tt, s')
    /\ attempted s'
       = [get_request (lit "http://localhost:9050/bigquery/v2/projects/test-project/datasets/test_dataset")].
Proof.
  intros net.
  destruct (@ensure_dataset_exists_present net default_emulator new_session
              {| status_code := 200; text := lit "{}";
                 content_length := None |} eq_refl eq_refl)
    as (s' & Run & Att & _).
  exists s'; split; [exact Run|].
  rewrite Att; vm_compute; reflexivity.
Defined.

(** X12. When the lookup answers anything but 200, [ensure_dataset_exists]
    makes exactly one more request, a POST of the dataset description to the
    datasets URL.  It returns if that POST is answered 200 and otherwise
    raises "Failed to create dataset: <status> - <text>". *)
Theorem ensure_dataset_exists_absent :
  forall (net : Network) (self : BigQueryEmulatorExternalTable) (s : Session)
         (response created : Response),
    reply (attempted s) (get_request (dataset_url self)) = Responded response ->
    status_code response <> 200 ->
    reply (attempted s ++ [get_request (dataset_url self)])
          (post_request (datasets_url self) (dataset_data self))
    = Responded created ->
    attempted (snd (ensure_dataset_exists self s))
    = attempted s
      ++ [ get_request (dataset_url self);
           post_request (datasets_url self) (dataset_data self) ]
    /\ (status_code created = 200 ->
        fst (ensure_dataset_exists self s) = Done tt)
    /\ (status_code created <> 200 ->
        fst (ensure_dataset_exists self s)
        = Failed {| is_connection_error := false;
                    exn_text := lit "Failed to create dataset: "
                                ++ str_of_nat (status_code created)
                                ++ lit " - " ++ text created |}).
Proof.
  intros net self s response created G NOK P.
  pose proof (ensure_dataset_exists_run self s) as Run; cbv zeta in Run.
  rewrite G, P in Run.
  apply Nat.eqb_neq in NOK; rewrite NOK in Run.
  rewrite Run.
  destruct (status_code created =? 200) eqn:C;
    cbn [fst snd with_output with_request attempted];
    rewrite <- app_assoc;
    (split; [reflexivity|]); split; intros H;
    try reflexivity.
  - apply Nat.eqb_eq in C; contradiction.
  - apply Nat.eqb_neq in C; contradiction.
Qed.

Lemma ensure_dataset_exists_absent_witness :
  let net := scripted [ response_with 404 (lit "not found");
                        response_with 500 (lit "boom") ] in
  fst (@ensure_dataset_exists net default_emulator new_session)
  = Failed {| is_connection_error := false;
              exn_text := lit "Failed to create dataset: 500 - boom" |}.
Proof.
  intros net.
  destruct (@ensure_dataset_exists_absent net default_emulator new_session
              {| status_code := 404; text := lit "not found";
                 content_length := None |}
              {| status_code := 500; text := lit "boom";
                 content_length := None |}
              eq_refl ltac:(discriminate) eq_refl)
    as (_ & _ & Bad).
  rewrite Bad by discriminate.
  vm_compute; reflexivity.
Defined.

Section ExternalTableFacts.
Context {ud : UnicodeData} {arrow : Arrow} {net : Network}.

(** What the entry point returns or raises does not depend on the state it
    starts from. *)
Lemma entry_point_outcome_independent (parquet_file table_name : str)
      (st1 st2 : State) :
  fst (generate_bigquery_schema_from_parquet parquet_file table_name st1)
  = fst (generate_bigquery_schema_from_parquet parquet_file table_name st2).
Proof.
  destruct (read_table parquet_file) as [cause|fields] eqn:R.
  - rewrite !(entry_point_read_error parquet_file table_name _ R); reflexivity.
  - rewrite !(entry_point_reads parquet_file table_name _ R); reflexivity.
Qed.

Lemma lift_run {A} (m : M A) (s : Session) :
  attempted (snd (lift m s)) = attempted s
  /\ slept (snd (lift m s)) = slept s
  /\ fst (lift m s)
     = match fst (m (console s)) with
       | Return a => Done a
       | Raise message =>
           Failed {| is_connection_error := false; exn_text := message |}
       end.
Proof.
  unfold lift; destruct (m (console s)) as [[a|message] c]; repeat split.
Qed.

(** The file check never fails: it makes one HEAD request and prints two
    lines, whatever the reply. *)
Lemma check_file_accessibility_run (url : str) (s : Session) :
  exists line,
    check_file_accessibility url s
    = (Done tt,
       with_output
         (with_request
            (with_output s [lit "Checking file accessibility at: " ++ url])
            (head_request url))
         [line]).
Proof.
  unfold check_file_accessibility, ebind at 1; rewrite say_run.
  unfold etry, ebind, requests_head, head_request; rewrite request_run.
  destruct (reply _ _) as [response|ce cause].
  - destruct (status_code response =? 200); eexists; reflexivity.
  - eexists; reflexivity.
Qed.
(** [create_external_table] once the schema is generated. *)
Lemma create_external_table_run (self : BigQueryEmulatorExternalTable)
      (parquet_file table_name ddl : str) (tuples : list (str * str))
      (s : Session) :
  fst (generate_bigquery_schema_from_parquet parquet_file table_name
         empty_state) = Return (ddl, tuples) ->
  exists s',
    create_external_table self parquet_file table_name s
    = (match reply
               (attempted s
                ++ [head_request
                      (file_server_url_of self (path_name parquet_file))])
               (post_request (tables_url self)
                  (external_table_data self parquet_file table_name tuples))
       with
       | Responded response =>
           if status_code response =? 200
           then Done (table_name, tuples)
           else Failed {| is_connection_error := false;
                          exn_text :=
                            lit "Failed to create external table: "
                            ++ status_and_text response |}
       | Refused ce cause =>
           Failed {| is_connection_error := ce; exn_text := cause |}
       end, s')
    /\ attempted s'
       = attempted s
         ++ [ head_request (file_server_url_of self (path_name parquet_file));
              post_request (tables_url self)
                (external_table_data self parquet_file table_name tuples) ].
Proof.
  intros G.
  set (h := head_request (file_server_url_of self (path_name parquet_file))).
  set (q := post_request (tables_url self)
              (external_table_data self parquet_file table_name tuples)).
  unfold create_external_table, ebind at 1; rewrite say_run.
  set (s1 := with_output s _).
  unfold ebind at 1, etry.
  destruct (lift_run (generate_bigquery_schema_from_parquet parquet_file
                        table_name) s1) as (La & _ & Lf).
  rewrite (entry_point_outcome_independent parquet_file table_name
             (console s1) empty_state), G in Lf.
  destruct (lift _ s1) as [[a|e] s2]; cbn [fst snd] in *; [|discriminate].
  injection Lf as ->; cbv zeta; cbn [snd].
  unfold ebind at 1.
  destruct (check_file_accessibility_run
              (file_server_url_of self (path_name parquet_file)) s2)
    as [line C]; rewrite C.
  unfold ebind, requests_post; rewrite request_run.
  cbn [with_output with_request attempted]; rewrite La.
  change (attempted s1) with (attempted s).
  fold h; change {| req_method := POST; req_url := tables_url self;
                    req_json := Some (external_table_data self parquet_file
                                        table_name tuples) |} with q.
  destruct (reply (attempted s ++ [h]) q) as [response|ce cause].
  - destruct (status_code response =? 200).
    + eexists; split; [reflexivity|].
      cbn [with_output with_request attempted].
      rewrite La, <- app_assoc; reflexivity.
    + eexists; split; [reflexivity|].
      cbn [with_output with_request attempted].
      rewrite La, <- app_assoc; reflexivity.
  - eexists; split; [reflexivity|].
    cbn [with_output with_request attempted].
    rewrite La, <- app_assoc; reflexivity.
Qed.

Lemma api_fields_map (column_tuples : list (str * str)) :
  api_fields column_tuples = map api_field column_tuples.
Proof. unfold api_fields; rewrite fold_left_append; reflexivity. Qed.
End ExternalTableFacts.

(** X13. When the schema cannot be generated -- the file does not read, or
    none of its columns is valid -- [create_external_table] raises "Failed to
    generate schema: " followed by the generator's message, and it has made
    no request to the file server or to the emulator. *)
Theorem create_external_table_schema_failure :
  forall (ud : UnicodeData) (arrow : Arrow) (net : Network)
         (self : BigQueryEmulatorExternalTable)
         (parquet_file table_name message : str) (s : Session),
    fst (generate_bigquery_schema_from_parquet parquet_file table_name
           empty_state) = Raise message ->
    fst (create_external_table self parquet_file table_name s)
    = Failed {| is_connection_error := false;
                exn_text := lit "Failed to generate schema: " ++ message |}
    /\ attempted (snd (create_external_table self parquet_file table_name s))
       = attempted s.
Proof.
  intros ud arrow net self parquet_file table_name message s G.
  assert (Run : exists s',
             create_external_table self parquet_file table_name s
             = (Failed {| is_connection_error := false;
                          exn_text := lit "Failed to generate schema: "
                                      ++ message |}, s')
             /\ attempted s' = attempted s).
  { unfold create_external_table, ebind at 1; rewrite say_run.
    set (s1 := with_output s _).
    unfold ebind at 1, etry.
    destruct (lift_run (generate_bigquery_schema_from_parquet parquet_file
                          table_name) s1) as (La & _ & Lf).
    rewrite (entry_point_outcome_independent parquet_file table_name
               (console s1) empty_state), G in Lf.
    destruct (lift _ s1) as [[a|e] s2]; cbn [fst snd] in *; [discriminate|].
    injection Lf as ->; unfold eraise; cbn [exn_text].
    eexists; split; [reflexivity | exact La]. }
  destruct Run as (s' & Run & A); rewrite Run; split; [reflexivity | exact A].
Qed.

Lemma create_external_table_schema_failure_witness :
  let net := scripted [] in
  fst (@generate_bigquery_schema_from_parquet ascii_data sample_files
         (lit "rejected.parquet") (lit "t") empty_state)
  = Raise (lit "Error generating schema: No valid columns found! All columns were skipped.")
  /\ fst (@create_external_table ascii_data sample_files net default_emulator
            (lit "rejected.parquet") (lit "t") new_session)
     = Failed {| is_connection_error := false;
                 exn_text := lit "Failed to generate schema: Error generating schema: No valid columns found! All columns were skipped." |}
  /\ attempted (snd (@create_external_table ascii_data sample_files net
                       default_emulator (lit "rejected.parquet") (lit "t")
                       new_session)) = [].
Proof.
  intros net.
  assert (G : fst (@generate_bigquery_schema_from_parquet ascii_data
                     sample_files (lit "rejected.parquet") (lit "t")
                     empty_state)
              = Raise (lit "Error generating schema: No valid columns found! All columns were skipped."))
    by (vm_compute; reflexivity).
  split; [exact G|].
  destruct (@create_external_table_schema_failure ascii_data sample_files net
              default_emulator (lit "rejected.parquet") (lit "t") _
              new_session G) as [F A].
  split; [rewrite F; reflexivity | exact A].
Defined.

(** X14. When the schema is generated, [create_external_table] makes exactly
    two requests: a HEAD of the file on the file server, whose outcome --
    any status, or an exception -- never changes what follows, and a POST of
    the table description to the tables URL.  It returns the table name and
    the column tuples if the POST is answered 200, raises "Failed to create
    external table: <status> - <text>" for any other status, and lets an
    exception of the POST itself through. *)
Theorem create_external_table_requests :
  forall (ud : UnicodeData) (arrow : Arrow) (net : Network)
         (self : BigQueryEmulatorExternalTable)
         (parquet_file table_name ddl_statement : str)
         (column_tuples : list (str * str)) (s : Session),
    fst (generate_bigquery_schema_from_parquet parquet_file table_name
           empty_state) = Return (ddl_statement, column_tuples) ->
    let h := head_request (file_server_url_of self (path_name parquet_file)) in
    let q := post_request (tables_url self)
               (external_table_data self parquet_file table_name
                  column_tuples) in
    attempted (snd (create_external_table self parquet_file table_name s))
    = attempted s ++ [h; q]
    /\ fst (create_external_table self parquet_file table_name s)
       = match reply (attempted s ++ [h]) q with
         | Responded response =>
             if status_code response =? 200
             then Done (table_name, column_tuples)
             else Failed {| is_connection_error := false;
                            exn_text := lit "Failed to create external table: "
                                        ++ str_of_nat (status_code response)
                                        ++ lit " - " ++ text response |}
         | Refused ce cause =>
             Failed {| is_connection_error := ce; exn_text := cause |}
         end.
Proof.
  intros ud arrow net self parquet_file table_name ddl tuples s G h q.
  destruct (create_external_table_run self parquet_file table_name s G)
    as (s' & Run & A).
  fold h q in Run, A; rewrite Run; split; [exact A|reflexivity].
Qed.

Lemma create_external_table_requests_witness :
  let net := scripted [connection_refused; response_with 200 (lit "{}")] in
  fst (@generate_bigquery_schema_from_parquet ascii_data sample_files
         (lit "data.parquet") (lit "t") empty_state)
  = Return (@generate_ddl (@accepted ascii_data sample_schema) (lit "t"),
            [ (lit "id", lit "INTEGER"); (lit "tags", lit "ARRAY<STRING>") ])
  /\ fst (@create_external_table ascii_data sample_files net default_emulator
            (lit "data.parquet") (lit "t") new_session)
     = Done (lit "t",
             [ (lit "id", lit "INTEGER"); (lit "tags", lit "ARRAY<STRING>") ])
  /\ map req_method
       (attempted (snd (@create_external_table ascii_data sample_files net
                          default_emulator (lit "data.parquet") (lit "t")
                          new_session)))
     = [HEAD; POST].
Proof.
  intros net.
  assert (G : fst (@generate_bigquery_schema_from_parquet ascii_data
                     sample_files (lit "data.parquet") (lit "t") empty_state)
              = Return (@generate_ddl (@accepted ascii_data sample_schema)
                          (lit "t"),
                        [ (lit "id", lit "INTEGER");
                          (lit "tags", lit "ARRAY<STRING>") ]))
    by (vm_compute; reflexivity).
  split; [exact G|].
  destruct (@create_external_table_requests ascii_data sample_files net
              default_emulator (lit "data.parquet") (lit "t") _ _
              new_session G) as [A F].
  split; [rewrite F | rewrite A]; reflexivity.
Defined.

(** X15. The table description that [create_external_table] posts lists, under
    [schema.fields], the valid columns of the file in source order, each with
    its name, its BigQuery type and the mode NULLABLE -- also the columns
    that are not nullable in the file: the mode computed by the generator is
    not passed on. *)
Theorem create_external_table_posts_nullable_fields :
  forall (ud : UnicodeData) (arrow : Arrow) (net : Network)
         (self : BigQueryEmulatorExternalTable)
         (parquet_file table_name : str) (fields : Schema) (s : Session),
    read_table parquet_file = inr fields ->
    filter valid_field fields <> [] ->
    exists payload,
      last (attempted (snd (create_external_table self parquet_file
                              table_name s)))
           (get_request [])
      = post_request (tables_url self) payload
      /\ match json_get (lit "schema") payload with
         | Some schema => json_get (lit "fields") schema
         | None => None
         end
         = Some (JList (map nullable_api_field (filter valid_field fields))).
Proof.
  intros ud arrow net self parquet_file table_name fields s R NE.
  assert (G : fst (generate_bigquery_schema_from_parquet parquet_file
                     table_name empty_state)
              = Return (generate_ddl (accepted fields) table_name,
                        get_column_tuples (accepted fields))).
  { rewrite (entry_point_reads parquet_file table_name empty_state R).
    unfold accepted; destruct (filter valid_field fields); [congruence|].
    reflexivity. }
  destruct (create_external_table_run self parquet_file table_name s G)
    as (s' & Run & A).
  rewrite Run; cbn [snd]; rewrite A.
  eexists; split.
  - change (attempted s
            ++ [ head_request (file_server_url_of self (path_name parquet_file));
                 post_request (tables_url self)
                   (external_table_data self parquet_file table_name
                      (get_column_tuples (accepted fields))) ])
      with (attempted s
            ++ [head_request (file_server_url_of self (path_name parquet_file))]
            ++ [post_request (tables_url self)
                  (external_table_data self parquet_file table_name
                     (get_column_tuples (accepted fields)))]).
    rewrite app_assoc; apply last_last.
  - cbn -[lit api_fields get_column_tuples].
    rewrite api_fields_map; unfold get_column_tuples, accepted.
    rewrite !map_map; reflexivity.
Qed.

Lemma create_external_table_posts_nullable_fields_witness :
  let net := scripted [connection_refused; response_with 200 (lit "{}")] in
  @read_table sample_files (lit "id.parquet") = inr id_schema
  /\ filter (@valid_field ascii_data) id_schema <> []
  /\ map field_nullable id_schema = [false]
  /\ exists payload,
      last (attempted (snd (@create_external_table ascii_data sample_files net
                              default_emulator (lit "id.parquet") (lit "t")
                              new_session)))
           (get_request [])
      = post_request (tables_url default_emulator) payload
      /\ match json_get (lit "schema") payload with
         | Some schema => json_get (lit "fields") schema
         | None => None
         end
         = Some (JList [ JDict [ (lit "name", JStr (lit "id"));
                                 (lit "type", JStr (lit "INTEGER"));
                                 (lit "mode", JStr (lit "NULLABLE")) ] ]).
Proof.
  intros net.
  assert (R : @read_table sample_files (lit "id.parquet") = inr id_schema)
    by reflexivity.
  assert (NE : filter (@valid_field ascii_data) id_schema <> [])
    by (vm_compute; discriminate).
  split; [exact R|]. split; [exact NE|]. split; [reflexivity|].
  destruct (@create_external_table_posts_nullable_fields ascii_data
              sample_files net default_emulator (lit "id.parquet") (lit "t")
              id_schema new_session R NE) as (payload & L & F).
  exists payload; split; [exact L|].
  rewrite F; reflexivity.
Defined.

Section WaitFacts.
Context {net : Network}.
Variable self : BigQueryEmulatorExternalTable.

Let g1 : Request := get_request (projects_url self).
Let g2 : Request := get_request (file_server_root self).

(** One round of the loop of [_wait_for_services], reply by reply. *)
Lemma wait_loop_step (remaining : nat) (s : Session) :
  wait_loop self (S remaining) s
  = match reply (attempted s) g1 with
    | Refused ce cause =>
        if ce
        then wait_loop self remaining (with_sleep (with_request s g1) 2)
        else (Failed {| is_connection_error := false; exn_text := cause |},
              with_request s g1)
    | Responded bq_response =>
        match reply (attempted s ++ [g1]) g2 with
        | Refused ce cause =>
            if ce
            then wait_loop self remaining
                   (with_sleep (with_request (with_request s g1) g2) 2)
            else (Failed {| is_connection_error := false; exn_text := cause |},
                  with_request (with_request s g1) g2)
        | Responded file_response =>
            if (status_code bq_response =? 200)
               && (status_code file_response =? 200)
            then (Done tt,
                  with_output (with_request (with_request s g1) g2)
                    [lit "Services are ready!"])
            else wait_loop self remaining
                   (with_sleep (with_request (with_request s g1) g2) 2)
        end
    end.
Proof.
  subst g1 g2; cbn [wait_loop].
  unfold ebind at 1, etry_connection_error, ebind at 1, requests_get,
    get_request.
  rewrite request_run.
  destruct (reply (attempted s) _) as [r1|[|] c1]; try reflexivity.
  unfold ebind at 1; rewrite request_run; cbn [with_request attempted].
  destruct (reply (attempted s ++ _) _) as [r2|[|] c2]; try reflexivity.
  destruct ((status_code r1 =? 200) && (status_code r2 =? 200)); reflexivity.
Qed.

(** The loop makes at most two requests and sleeps at most two seconds per
    round, and no connection error leaves it. *)
Lemma wait_loop_bounded (remaining : nat) :
  forall s : Session,
    length (attempted (snd (wait_loop self remaining s)))
    <= length (attempted s) + 2 * remaining
    /\ slept (snd (wait_loop self remaining s)) <= slept s + 2 * remaining
    /\ (fst (wait_loop self remaining s) = Done tt
        \/ exists cause,
             fst (wait_loop self remaining s)
             = Failed {| is_connection_error := false; exn_text := cause |}).
Proof.
  induction remaining as [|k IH]; intros s.
  - cbn; repeat split; try lia. right; eexists; reflexivity.
  - rewrite wait_loop_step.
    destruct (reply (attempted s) g1) as [r1|[|] c1].
    + destruct (reply (attempted s ++ [g1]) g2) as [r2|[|] c2].
      * destruct ((status_code r1 =? 200) && (status_code r2 =? 200)).
        -- cbn [fst snd with_output with_request attempted slept].
           rewrite !length_app; cbn [length].
           repeat split; try lia. left; reflexivity.
        -- specialize (IH (with_sleep (with_request (with_request s g1) g2) 2)).
           cbn [with_sleep with_request attempted slept] in IH.
           rewrite !length_app in IH; cbn [length] in IH.
           destruct IH as (A & B & C); repeat split; try lia; exact C.
      * specialize (IH (with_sleep (with_request (with_request s g1) g2) 2)).
        cbn [with_sleep with_request attempted slept] in IH.
        rewrite !length_app in IH; cbn [length] in IH.
        destruct IH as (A & B & C); repeat split; try lia; exact C.
      * cbn [fst snd with_request attempted slept].
        rewrite !length_app; cbn [length].
        repeat split; try lia. right; eexists; reflexivity.
    + specialize (IH (with_sleep (with_request s g1) 2)).
      cbn [with_sleep with_request attempted slept] in IH.
      rewrite !length_app in IH; cbn [length] in IH.
      destruct IH as (A & B & C); repeat split; try lia; exact C.
    + cbn [fst snd with_request attempted slept].
      rewrite !length_app; cbn [length].
      repeat split; try lia. right; eexists; reflexivity.
Qed.

(** When the loop returns, its last two requests were the two probes, both
    answered 200, and its last line says so. *)
Lemma wait_loop_ready (remaining : nat) :
  forall s : Session,
    fst (wait_loop self remaining s) = Done tt ->
    exists history bq_response file_response,
      attempted (snd (wait_loop self remaining s)) = history ++ [g1; g2]
      /\ reply history g1 = Responded bq_response
      /\ reply (history ++ [g1]) g2 = Responded file_response
      /\ status_code bq_response = 200
      /\ status_code file_response = 200
      /\ last (stdout (console (snd (wait_loop self remaining s)))) []
         = lit "Services are ready!".
Proof.
  induction remaining as [|k IH]; intros s; [discriminate|].
  rewrite wait_loop_step.
  destruct (reply (attempted s) g1) as [r1|[|] c1] eqn:R1;
    [|apply IH|discriminate].
  destruct (reply (attempted s ++ [g1]) g2) as [r2|[|] c2] eqn:R2;
    [|apply IH|discriminate].
  destruct ((status_code r1 =? 200) && (status_code r2 =? 200)) eqn:OK;
    [|apply IH].
  intros _; apply andb_true_iff in OK; destruct OK as [O1 O2].
  apply Nat.eqb_eq in O1, O2.
  exists (attempted s), r1, r2.
  cbn [snd with_output with_request attempted console stdout].
  rewrite <- app_assoc, last_last; repeat split; assumption.
Qed.

(** With every connection refused, each round makes the first probe only. *)
Lemma wait_loop_unreachable (remaining : nat) :
  (forall history r, exists cause, reply history r = Refused true cause) ->
  forall s : Session,
    wait_loop self remaining s
    = (Failed {| is_connection_error := false; exn_text := timeout_message |},
       {| console := console s;
          attempted := attempted s ++ repeat g1 remaining;
          slept := slept s + 2 * remaining |}).
Proof.
  intros Down; induction remaining as [|k IH]; intros s.
  - destruct s; cbn; rewrite app_nil_r, Nat.add_0_r; reflexivity.
  - rewrite wait_loop_step.
    destruct (Down (attempted s) g1) as [cause R]; rewrite R, IH.
    cbn [with_sleep with_request attempted slept console repeat].
    rewrite <- app_assoc; f_equal; f_equal; cbn [app]; lia.
Qed.
End WaitFacts.

(** X16. Whatever the network does, [_wait_for_services] makes at most 120
    requests and sleeps at most 120 seconds.  It either returns or raises an
    exception that is not a connection error -- connection errors of the
    probes are always swallowed and retried. *)
Theorem wait_for_services_bounded :
  forall (net : Network) (self : BigQueryEmulatorExternalTable) (s : Session),
    length (attempted (snd (_wait_for_services self s)))
    <= length (attempted s) + 120
    /\ slept (snd (_wait_for_services self s)) <= slept s + 120
    /\ (fst (_wait_for_services self s) = Done tt
        \/ exists cause,
             fst (_wait_for_services self s)
             = Failed {| is_connection_error := false; exn_text := cause |}).
Proof.
  intros net self s.
  unfold _wait_for_services, ebind; rewrite say_run.
  apply (wait_loop_bounded self max_retries
           (with_output s [lit "Waiting for services to be ready..."])).
Qed.

(** X17. If [_wait_for_services] returns, the last two requests it made were
    the probe of the emulator and the probe of the file server, in this
    order, both were answered 200, and the last line it printed is "Services
    are ready!". *)
Theorem wait_for_services_ready :
  forall (net : Network) (self : BigQueryEmulatorExternalTable) (s : Session),
    fst (_wait_for_services self s) = Done tt ->
    exists history bq_response file_response,
      attempted (snd (_wait_for_services self s))
      = history ++ [ get_request (projects_url self);
                     get_request (file_server_root self) ]
      /\ reply history (get_request (projects_url self))
         = Responded bq_response
      /\ reply (history ++ [get_request (projects_url self)])
               (get_request (file_server_root self))
         = Responded file_response
      /\ status_code bq_response = 200
      /\ status_code file_response = 200
      /\ last (stdout (console (snd (_wait_for_services self s)))) []
         = lit "Services are ready!".
Proof.
  intros net self s.
  unfold _wait_for_services, ebind; rewrite say_run.
  apply (wait_loop_ready self max_retries).
Qed.

Lemma wait_for_services_ready_witness :
  let net := scripted [ connection_refused;
                        response_with 200 (lit "{}");
                        response_with 503 (lit "starting");
                        response_with 200 (lit "{}");
                        response_with 200 (lit "ok") ] in
  fst (@_wait_for_services net default_emulator new_session) = Done tt
  /\ length (attempted (snd (@_wait_for_services net default_emulator
                               new_session))) = 5
  /\ slept (snd (@_wait_for_services net default_emulator new_session)) = 4
  /\ exists history bq_response file_response,
      attempted (snd (@_wait_for_services net default_emulator new_session))
      = history ++ [ get_request (projects_url default_emulator);
                     get_request (file_server_root default_emulator) ]
      /\ reply history (get_request (projects_url default_emulator))
         = Responded bq_response
      /\ reply (history ++ [get_request (projects_url default_emulator)])
               (get_request (file_server_root default_emulator))
         = Responded file_response
      /\ status_code bq_response = 200
      /\ status_code file_response = 200
      /\ last (stdout (console (snd (@_wait_for_services net default_emulator
                                       new_session)))) []
         = lit "Services are ready!".
Proof.
  intros net.
  assert (D : fst (@_wait_for_services net default_emulator new_session)
              = Done tt) by (vm_compute; reflexivity).
  split; [exact D|].
  split; [vm_compute; reflexivity|].
  split; [vm_compute; reflexivity|].
  exact (@wait_for_services_ready net default_emulator new_session D).
Defined.

(** X18. If every connection is refused, [_wait_for_services] gives up after
    exactly 60 rounds: it has probed the emulator 60 times and the file
    server never, has slept 120 seconds, and raises "Services failed to start
    within timeout period". *)
Theorem wait_for_services_unreachable :
  forall (net : Network) (self : BigQueryEmulatorExternalTable) (s : Session),
    (forall history r, exists cause, reply history r = Refused true cause) ->
    _wait_for_services self s
    = (Failed {| is_connection_error := false;
                 exn_text :=
                   lit "Services failed to start within timeout period" |},
       {| console :=
            {| skipped_columns := skipped_columns (console s);
               valid_columns := valid_columns (console s);
               stdout := stdout (console s)
                         ++ [lit "Waiting for services to be ready..."] |};
          attempted :=
            attempted s ++ repeat (get_request (projects_url self)) 60;
          slept := slept s + 120 |}).
Proof.
  intros net self s Down.
  unfold _wait_for_services, ebind; rewrite say_run.
  rewrite (wait_loop_unreachable self max_retries Down).
  reflexivity.
Qed.

Lemma wait_for_services_unreachable_witness :
  (forall history r,
      exists cause, @reply unreachable history r = Refused true cause)
  /\ fst (@_wait_for_services unreachable default_emulator new_session)
     = Failed {| is_connection_error := false;
                 exn_text :=
                   lit "Services failed to start within timeout period" |}
  /\ slept (snd (@_wait_for_services unreachable default_emulator new_session))
     = 120.
Proof.
  assert (Down : forall history r,
             exists cause, @reply unreachable history r = Refused true cause).
  { intros history r; exists (lit "Connection refused").
    unfold unreachable, scripted, reply; destruct (length history); reflexivity. }
  split; [exact Down|].
  rewrite (@wait_for_services_unreachable unreachable default_emulator
             new_session Down).
  split; reflexivity.
Defined.

(** * Properties of [print_query_results] *)

Lemma efor_say {A} (line : A -> str) (xs : list A) :
  forall s : Session,
    efor xs (fun x => say (line x)) s = (Done tt, with_output s (map line xs)).
Proof.
  induction xs as [|x xs IH]; intros s.
  - destruct s as [[sk va out] att sl]; unfold with_output; cbn.
    rewrite app_nil_r; reflexivity.
  - cbn [efor map]; unfold ebind; rewrite say_run, IH, with_output_output.
    reflexivity.
Qed.

Lemma efor_ext {A} (f g : A -> E unit) (xs : list A) :
  (forall x s, f x s = g x s) ->
  forall s : Session, efor xs f s = efor xs g s.
Proof.
  intros H; induction xs as [|x xs IH]; intros s; [reflexivity|].
  cbn [efor]; unfold ebind; rewrite H.
  destruct (g x s) as [[u|e] s']; [apply IH | reflexivity].
Qed.

Lemma column_names_of_named (names : list str) (s : Session) :
  column_names_of (map named names) s = (Done names, s).
Proof.
  induction names as [|n names IH]; [reflexivity|].
  cbn [map column_names_of named field_dict_name]; unfold ebind.
  rewrite IH; reflexivity.
Qed.

Lemma column_names_of_unnamed (before after : list FieldDict) (s : Session) :
  column_names_of (before ++ {| field_dict_name := None |} :: after) s
  = (Failed {| is_connection_error := false; exn_text := lit "'name'" |}, s).
Proof.
  induction before as [|f before IH]; [reflexivity|].
  cbn [app column_names_of].
  destruct (field_dict_name f); [|reflexivity].
  unfold ebind; rewrite IH; reflexivity.
Qed.

Lemma length_ljust (width : nat) (s : str) :
  length (ljust width s) = Nat.max width (length s).
Proof. unfold ljust; rewrite length_app, repeat_length; lia. Qed.

Lemma length_join_uniform (sep : str) (width : nat) (parts : list str) :
  Forall (fun p => length p = width) parts ->
  parts <> [] ->
  length (join sep parts) + length sep
  = length parts * (width + length sep).
Proof.
  induction 1 as [|p rest Hp _ IH];
    [intros NE; exfalso; apply NE; reflexivity|]; intros _.
  destruct rest as [|q rest].
  - cbn [join length]; lia.
  - change (join sep (p :: q :: rest)) with (p ++ sep ++ join sep (q :: rest)).
    rewrite !length_app.
    assert (NE : q :: rest <> []) by discriminate.
    specialize (IH NE); cbn [length] in *; lia.
Qed.

(** X19. Without rows -- the key is absent, or the list is empty --
    [print_query_results] prints the single line "No data returned from
    query" and returns; it does not look at the schema. *)
Theorem print_query_results_no_rows :
  forall (result : QueryResult) (s : Session),
    result_rows result = None \/ result_rows result = Some [] ->
    print_query_results result s
    = (Done tt, with_output s [lit "No data returned from query"]).
Proof.
  intros result s [H|H]; unfold print_query_results; rewrite H; reflexivity.
Qed.

Lemma print_query_results_no_rows_witness :
  result_rows
    {| result_rows := Some [];
       result_schema :=
         Some {| schema_fields := Some [{| field_dict_name := None |}] |} |}
  = Some []
  /\ print_query_results
       {| result_rows := Some [];
          result_schema :=
            Some {| schema_fields := Some [{| field_dict_name := None |}] |} |}
       new_session
     = (Done tt, with_output new_session [lit "No data returned from query"]).
Proof.
  split; [reflexivity|].
  apply print_query_results_no_rows; right; reflexivity.
Defined.

(** X20. With at least one row and a schema field that has no name,
    [print_query_results] raises the key error for ['name'] before it prints
    anything. *)
Theorem print_query_results_unnamed_field :
  forall (result : QueryResult) (row : RowDict) (rows : list RowDict)
         (before after : list FieldDict) (s : Session),
    result_rows result = Some (row :: rows) ->
    result_schema result
    = Some {| schema_fields :=
                Some (before ++ {| field_dict_name := None |} :: after) |} ->
    print_query_results result s
    = (Failed {| is_connection_error := false; exn_text := lit "'name'" |}, s).
Proof.
  intros result row rows before after s HR HS.
  unfold print_query_results; rewrite HR, HS; cbn [schema_fields].
  unfold ebind at 1; rewrite column_names_of_unnamed; reflexivity.
Qed.

Lemma print_query_results_unnamed_field_witness :
  print_query_results
    {| result_rows := Some [{| row_f := None |}];
       result_schema :=
         Some {| schema_fields :=
                   Some ([named (lit "id")]
                         ++ {| field_dict_name := None |} :: []) |} |}
    new_session
  = (Failed {| is_connection_error := false; exn_text := lit "'name'" |},
     new_session).
Proof.
  apply (@print_query_results_unnamed_field _ {| row_f := None |} []
           [named (lit "id")] [] new_session); reflexivity.
Defined.

(** X21. With at least one row and every schema field named,
    [print_query_results] returns after printing a blank line, the title, a
    rule of 60 [=], the header, a rule of [-] exactly as long as the header,
    one line per row in order, and a blank line: six lines more than there
    are rows. *)
Theorem print_query_results_layout :
  forall (result : QueryResult) (row : RowDict) (rows : list RowDict)
         (column_names : list str) (s : Session),
    result_rows result = Some (row :: rows) ->
    result_schema result
    = Some {| schema_fields := Some (map named column_names) |} ->
    exists lines,
      print_query_results result s = (Done tt, with_output s lines)
      /\ lines
         = [ []; lit "QUERY RESULTS:"; repeat 61%N 60;
             header_line column_names;
             repeat 45%N (length (header_line column_names)) ]
           ++ map row_line (row :: rows) ++ [[]]
      /\ length lines = 6 + length (row :: rows).
Proof.
  intros result row rows column_names s HR HS.
  eexists; split; [|split; [reflexivity|]].
  - unfold print_query_results; rewrite HR, HS; cbn [schema_fields].
    unfold ebind at 1; rewrite column_names_of_named.
    unfold ebind at 1; rewrite say_run.
    unfold ebind at 1; rewrite say_run.
    unfold ebind at 1; rewrite say_run.
    cbv zeta.
    unfold ebind at 1; rewrite say_run.
    unfold ebind at 1; rewrite say_run.
    unfold ebind at 1.
    rewrite (efor_ext _ (fun r => say (row_line r))).
    + rewrite efor_say, say_run, !with_output_output.
      unfold header_line; reflexivity.
    + intros r s0; cbv zeta; unfold row_line.
      rewrite fold_left_append; reflexivity.
  - rewrite length_app, length_app, length_map; cbn [length]; lia.
Qed.

Lemma print_query_results_layout_witness :
  result_rows sample_result
  = Some [ {| row_f := Some [Value (lit "1"); NoneValue] |};
           {| row_f := Some [Value (lit "2"); Value (lit "x")] |} ]
  /\ exists lines,
      print_query_results sample_result new_session
      = (Done tt, with_output new_session lines)
      /\ lines
         = [ [];
             lit "QUERY RESULTS:";
             lit "============================================================";
             lit "id              | tag            ";
             lit "---------------------------------";
             lit "1               | NULL           ";
             lit "2               | x              ";
             [] ].
Proof.
  split; [reflexivity|].
  destruct (@print_query_results_layout sample_result
              {| row_f := Some [Value (lit "1"); NoneValue] |}
              [ {| row_f := Some [Value (lit "2"); Value (lit "x")] |} ]
              [lit "id"; lit "tag"] new_session eq_refl eq_refl)
    as (lines & Run & L & _).
  exists lines; split; [exact Run|].
  rewrite L; vm_compute; reflexivity.
Defined.

Lemma padded_width (texts : list str) :
  Forall (fun t => length t <= 15) texts ->
  Forall (fun p => length p = 15) (map (ljust 15) texts).
Proof.
  induction 1 as [|t texts Ht _ IH]; cbn [map]; constructor; [|exact IH].
  rewrite length_ljust; lia.
Qed.

(** X22. When there is at least one column, no column name is longer than 15
    characters, and a row has as many cells as there are columns, none with a
    text longer than 15 characters, the line printed for the row is exactly
    as long as the header: 15 characters per column and 3 per separator. *)
Theorem print_query_results_aligned :
  forall (column_names : list str) (row : RowDict) (cells : list CellValue),
    column_names <> [] ->
    Forall (fun name => length name <= 15) column_names ->
    row_f row = Some cells ->
    length cells = length column_names ->
    Forall (fun cell => length (cell_text cell) <= 15) cells ->
    length (header_line column_names) + 3 = 18 * length column_names
    /\ length (row_line row) = length (header_line column_names).
Proof.
  intros column_names row cells NE Hn Hr Hl Hc.
  assert (H : length (header_line column_names) + 3
              = 18 * length column_names).
  { unfold header_line.
    pose proof (@length_join_uniform column_separator 15
                  (map (ljust 15) column_names) (padded_width Hn)) as J.
    rewrite length_map in J.
    change (length column_separator) with 3 in J.
    rewrite J; [lia|].
    destruct column_names; [congruence | discriminate]. }
  split; [exact H|].
  assert (R : length (row_line row) + 3 = 18 * length cells).
  { unfold row_line; rewrite Hr, <- (map_map cell_text (ljust 15)).
    assert (Ht : Forall (fun t => length t <= 15) (map cell_text cells)).
    { apply Forall_map; exact Hc. }
    pose proof (@length_join_uniform column_separator 15
                  (map (ljust 15) (map cell_text cells)) (padded_width Ht))
      as J.
    rewrite !length_map in J.
    change (length column_separator) with 3 in J.
    rewrite J; [lia|].
    destruct cells; [|discriminate].
    destruct column_names; [congruence | discriminate]. }
  lia.
Qed.

Lemma print_query_results_aligned_witness :
  [lit "id"; lit "tag"] <> []
  /\ length (header_line [lit "id"; lit "tag"]) + 3 = 36
  /\ length (row_line {| row_f := Some [Value (lit "1"); NoneValue] |})
     = length (header_line [lit "id"; lit "tag"]).
Proof.
  assert (NE : [lit "id"; lit "tag"] <> []) by discriminate.
  split; [exact NE|].
  apply (@print_query_results_aligned [lit "id"; lit "tag"]
           {| row_f := Some [Value (lit "1"); NoneValue] |}
           [Value (lit "1"); NoneValue] NE).
  - repeat constructor; vm_compute; lia.
  - reflexivity.
  - reflexivity.
  - repeat constructor; vm_compute; lia.
Defined.
